(** * gulp-lambda-deploy: a shallow embedding of [index.js]

    The plugin receives vinyl files through an object stream, keeps one of
    them in [params.file], and at flush time deploys it to AWS Lambda
    (optionally through S3), then upserts an alias.

    Modelling choices.
    - JavaScript values are a small universe [JsVal]; the presence tests of
      the source ([if (params.x)], [!params.x], [a || b]) are JavaScript
      truthiness, [truthy].  Numbers are integers (no [NaN]).
    - The objects handed to the SDK ([lamparams], [s3params], [code]) are
      finite maps from property names to values, so that "the call carries
      field [k]" is [req !! k = Some v] and "field [k] is omitted" is
      [req !! k = None].
    - The SDK is a parameter: a [Platform] over an arbitrary state [W] gives
      the [(err, data)] pair each callback receives, as a sum.
    - A promise is a computation over the platform state and the log of
      remote calls made so far, settling with a value or a rejection.
    - [gutil.PluginError] is the constructor of gulp-util: it throws on an
      empty message, so [gulpError] is partial and a run of [flush] can
      end without [cb] being called.
    - [gutil.log] and the construction of the SDK clients (credentials,
      region) are not modelled. *)

From Stdlib Require Import ZArith Lia.
From stdpp Require Import gmap strings list fin_maps.

Open Scope string_scope.

(* ===================================================================== *)
(** ** JavaScript values *)
(* ===================================================================== *)

#[warnings="-register-all"] Inductive JsVal : Type :=
| JUndefined
| JNull
| JBool (b : bool)
| JNum (n : Z)
| JStr (s : string)
| JBuffer (bytes : list Byte.byte)
| JStream
| JArr (xs : list JsVal)
| JObj (m : gmap string JsVal).

(** A JavaScript object used as a record of named properties. *)
Abbreviation JsObject := (gmap string JsVal).

(** [ToBoolean]: [undefined], [null], [false], [0] and [''] are falsy. *)
Definition truthy (v : JsVal) : bool :=
  match v with
  | JUndefined | JNull => false
  | JBool b => b
  | JNum n => negb (n =? 0)%Z
  | JStr s => negb (String.eqb s "")
  | JBuffer _ | JStream | JArr _ | JObj _ => true
  end.

(** [a || b] *)
Definition js_or (a b : JsVal) : JsVal := if truthy a then a else b.

(** [typeof v === 'string'] *)
Definition typeof_string (v : JsVal) : bool :=
  match v with JStr _ => true | _ => false end.

(** [v.k] for a value [v] that is not [undefined] or [null]: a property of
    an object, [undefined] on anything else for the names read here
    ([bucket], [key]). *)
Definition prop (v : JsVal) (k : string) : JsVal :=
  match v with
  | JObj m => default JUndefined (m !! k)
  | _ => JUndefined
  end.

(** [s === v] for a string [s]. *)
Definition strict_eq_str (s : string) (v : JsVal) : bool :=
  match v with JStr t => String.eqb s t | _ => false end.

(** [s.slice(-4)]: the last four characters, the whole string when it is
    shorter. *)
Definition slice_4 (s : string) : string :=
  String.substring (String.length s - 4) 4 s.

(* ===================================================================== *)
(** ** Vinyl files, parameters, options *)
(* ===================================================================== *)

(** A vinyl file's contents are [null], a Buffer or a Stream. *)
Inductive Contents : Type :=
| Null
| Buffer (bytes : list Byte.byte)
| Stream.

Record File : Type := { path : string; contents : Contents }.

Definition isNull (f : File) : bool :=
  match contents f with Null => true | _ => false end.

Definition isStream (f : File) : bool :=
  match contents f with Stream => true | _ => false end.

Definition isBuffer (f : File) : bool :=
  match contents f with Buffer _ => true | _ => false end.

(** [file.contents] as a value placed in a request. *)
Definition contents_val (c : Contents) : JsVal :=
  match c with
  | Null => JNull
  | Buffer b => JBuffer b
  | Stream => JStream
  end.

(** The [params] object: the properties the plugin reads, [JUndefined]
    when the caller left one out; [file] is [params.file], [None] while it
    is [undefined]. *)
Record Params : Type := {
  name : JsVal;
  role : JsVal;
  handler : JsVal;
  runtime : JsVal;
  memory : JsVal;
  description : JsVal;
  timeout : JsVal;
  subnets : JsVal;
  securityGroups : JsVal;
  s3 : JsVal;
  publish : JsVal;
  alias : JsVal;
  file : option File
}.

(** [params.file = file] *)
Definition set_file (params : Params) (f : File) : Params :=
  {| name := name params; role := role params; handler := handler params;
     runtime := runtime params; memory := memory params;
     description := description params; timeout := timeout params;
     subnets := subnets params; securityGroups := securityGroups params;
     s3 := s3 params; publish := publish params; alias := alias params;
     file := Some f |}.

Record Options : Type := { region : JsVal; profile : JsVal }.

Module DEFAULT_PARAMS.
Definition handler : JsVal := JStr "index.handler".
Definition runtime : JsVal := JStr "nodejs4.3".
End DEFAULT_PARAMS.

Record PluginError : Type := { plugin : string; message : string }.

(** A plain [Error], by its message. *)
Record JsError : Type := { error_message : string }.

(** [gulpError(message)] is [new gutil.PluginError('gulp-lambda-deploy',
    message)].  The constructor of gulp-util throws the [Error]
    [Missing error message] when the message is empty: [inl] is that
    exception, [inr] the error object it returns otherwise.  Where the
    source throws [gulpError(m)] the value thrown is either of them; where
    it hands [gulpError(m)] to a callback, the callback is reached with
    the [inr] only. *)
Definition gulpError (msg : string) : JsError + PluginError :=
  if String.eqb msg ""
  then inl {| error_message := "Missing error message" |}
  else inr {| plugin := "gulp-lambda-deploy"; message := msg |}.

(* ===================================================================== *)
(** ** The remote platform *)
(* ===================================================================== *)

(** The [err] argument of an SDK callback. *)
Record AwsError : Type := { code : string; err_message : string }.

(** The [data] arguments of the SDK callbacks. *)
Record PutObjectOutput : Type := { ETag : string }.
Record FunctionConfiguration : Type :=
  { FunctionName : string; Version : string }.
Record AliasConfiguration : Type :=
  { AliasName : string; FunctionVersion : string }.

(** The eight remote operations the plugin uses. *)
Inductive Op : Type :=
| PutObject
| ListFunctions
| CreateFunction
| UpdateFunctionConfiguration
| UpdateFunctionCode
| GetAlias
| CreateAlias
| UpdateAlias.

Global Instance Op_eq_dec : EqDecision Op.
Proof. solve_decision. Defined.

(** One remote call: the request object and what the callback received
    ([inl err] for [(err, null)], [inr data] for [(null, data)]). *)
Inductive Event : Type :=
| EvPutObject (req : JsObject) (res : AwsError + PutObjectOutput)
| EvListFunctions (req : JsObject)
    (res : AwsError + list FunctionConfiguration)
| EvCreateFunction (req : JsObject) (res : AwsError + FunctionConfiguration)
| EvUpdateFunctionConfiguration (req : JsObject)
    (res : AwsError + FunctionConfiguration)
| EvUpdateFunctionCode (req : JsObject)
    (res : AwsError + FunctionConfiguration)
| EvGetAlias (req : JsObject) (res : AwsError + AliasConfiguration)
| EvCreateAlias (req : JsObject) (res : AwsError + AliasConfiguration)
| EvUpdateAlias (req : JsObject) (res : AwsError + AliasConfiguration).

Definition is_ok {E A : Type} (r : E + A) : bool :=
  match r with inl _ => false | inr _ => true end.

Definition ev_op (e : Event) : Op :=
  match e with
  | EvPutObject _ _ => PutObject
  | EvListFunctions _ _ => ListFunctions
  | EvCreateFunction _ _ => CreateFunction
  | EvUpdateFunctionConfiguration _ _ => UpdateFunctionConfiguration
  | EvUpdateFunctionCode _ _ => UpdateFunctionCode
  | EvGetAlias _ _ => GetAlias
  | EvCreateAlias _ _ => CreateAlias
  | EvUpdateAlias _ _ => UpdateAlias
  end.

Definition ev_req (e : Event) : JsObject :=
  match e with
  | EvPutObject r _ | EvListFunctions r _ | EvCreateFunction r _
  | EvUpdateFunctionConfiguration r _ | EvUpdateFunctionCode r _
  | EvGetAlias r _ | EvCreateAlias r _ | EvUpdateAlias r _ => r
  end.

(** The call completed successfully. *)
Definition ev_ok (e : Event) : bool :=
  match e with
  | EvPutObject _ r => is_ok r
  | EvListFunctions _ r => is_ok r
  | EvCreateFunction _ r | EvUpdateFunctionConfiguration _ r
  | EvUpdateFunctionCode _ r => is_ok r
  | EvGetAlias _ r | EvCreateAlias _ r | EvUpdateAlias _ r => is_ok r
  end.

(** The error a failed call handed to its callback. *)
Definition ev_err (e : Event) : option AwsError :=
  let err {A} (r : AwsError + A) :=
    match r with inl x => Some x | inr _ => None end in
  match e with
  | EvPutObject _ r => err r
  | EvListFunctions _ r => err r
  | EvCreateFunction _ r | EvUpdateFunctionConfiguration _ r
  | EvUpdateFunctionCode _ r => err r
  | EvGetAlias _ r | EvCreateAlias _ r | EvUpdateAlias _ r => err r
  end.

(** The SDK clients [s3] and [lambda], over a platform state [W]. *)
Record Platform (W : Type) : Type := {
  s3_putObject : JsObject -> W -> (AwsError + PutObjectOutput) * W;
  lambda_listFunctions :
    JsObject -> W -> (AwsError + list FunctionConfiguration) * W;
  lambda_createFunction :
    JsObject -> W -> (AwsError + FunctionConfiguration) * W;
  lambda_updateFunctionConfiguration :
    JsObject -> W -> (AwsError + FunctionConfiguration) * W;
  lambda_updateFunctionCode :
    JsObject -> W -> (AwsError + FunctionConfiguration) * W;
  lambda_getAlias : JsObject -> W -> (AwsError + AliasConfiguration) * W;
  lambda_createAlias : JsObject -> W -> (AwsError + AliasConfiguration) * W;
  lambda_updateAlias : JsObject -> W -> (AwsError + AliasConfiguration) * W
}.

Arguments s3_putObject {W} _ _ _.
Arguments lambda_listFunctions {W} _ _ _.
Arguments lambda_createFunction {W} _ _ _.
Arguments lambda_updateFunctionConfiguration {W} _ _ _.
Arguments lambda_updateFunctionCode {W} _ _ _.
Arguments lambda_getAlias {W} _ _ _.
Arguments lambda_createAlias {W} _ _ _.
Arguments lambda_updateAlias {W} _ _ _.

(* ===================================================================== *)
(** ** Promises *)
(* ===================================================================== *)

(** The state a promise runs in: the platform and the calls made so far,
    oldest first. *)
Record Run (W : Type) : Type := { world : W; trace : list Event }.
Arguments world {W} _.
Arguments trace {W} _.

(** A promise settles: [inl err] rejected, [inr a] resolved. *)
Definition Promise (W A : Type) : Type :=
  Run W -> (AwsError + A) * Run W.

Definition resolve {W A} (a : A) : Promise W A := fun s => (inr a, s).

Definition reject {W A} (e : AwsError) : Promise W A := fun s => (inl e, s).

(** [p.then(f)] *)
Definition then_ {W A B} (p : Promise W A) (f : A -> Promise W B)
  : Promise W B :=
  fun s =>
    match p s with
    | (inl e, s') => (inl e, s')
    | (inr a, s') => f a s'
    end.

Notation "x <- p ;; q" := (then_ p (fun x => q))
  (at level 100, p at next level, right associativity).

(** Issue one SDK call: run it on the platform, log it, and hand the
    callback's arguments to [cb]. *)
Definition sdk {W R A} (call : W -> (AwsError + R) * W)
    (log : (AwsError + R) -> Event)
    (cb : (AwsError + R) -> Promise W A) : Promise W A :=
  fun s =>
    let '(res, w') := call (world s) in
    cb res {| world := w'; trace := trace s ++ [log res] |}.

(* ===================================================================== *)
(** ** The plugin *)
(* ===================================================================== *)

(** What a run of [flush] leaves behind: how it ended, the files pushed
    downstream, the remote calls made, the platform afterwards.
    [cb_error] is [None] when [cb()] was called without an error,
    [Some (inr e)] when [cb(e)] was called, and [Some (inl x)] when [x]
    was thrown while the error for [cb] was built, so that [cb] was never
    called. *)
Record Flushed (W : Type) : Type := {
  cb_error : option (JsError + PluginError);
  pushed : list File;
  calls : list Event;
  after : W
}.
Arguments cb_error {W} _.
Arguments pushed {W} _.
Arguments calls {W} _.
Arguments after {W} _.

(** A whole use of the plugin either throws or ends the stream. *)
Inductive Outcome (W : Type) : Type :=
| Threw (e : JsError + PluginError)
| Ended (r : Flushed W).
Arguments Threw {W} _.
Arguments Ended {W} _.

Section Plugin.
Context {W : Type} (aws : Platform W).

Definition s3upload_s3params (params : Params) : JsObject :=
  <["Body" := match file params with
              | Some f => contents_val (contents f)
              | None => JUndefined
              end]>
  (<["Key" := prop (s3 params) "key"]>
  (<["Bucket" := prop (s3 params) "bucket"]> ∅)).

(** [s3upload]: the callback rejects on [err]; the [resolve] that
    follows an executed [reject] has no effect on a settled promise. *)
Definition s3upload (params : Params) : Promise W PutObjectOutput :=
  let s3params := s3upload_s3params params in
  sdk (s3_putObject aws s3params) (EvPutObject s3params)
    (fun res =>
       match res with
       | inl err => reject err
       | inr data => resolve data
       end).

(** The loop of [hasLambdaFunction] over [data.Functions]. *)
Fixpoint scan_functions (functions : list FunctionConfiguration)
    (targetFunction : JsVal) : bool :=
  match functions with
  | [] => false
  | f :: rest =>
      if strict_eq_str (FunctionName f) targetFunction then true
      else scan_functions rest targetFunction
  end.

Definition hasLambdaFunction (targetFunction : JsVal) : Promise W bool :=
  functions <-
    sdk (lambda_listFunctions aws ∅) (EvListFunctions ∅)
      (fun res =>
         match res with
         | inl err => reject err
         | inr data => resolve data
         end) ;;
  resolve (scan_functions functions targetFunction).

(** The code part shared by [updateFunctionCode] ([lamparams]) and
    [createFunction] ([code]): either the S3 location or the bytes. *)
Definition add_code (params : Params) (o : JsObject) : JsObject :=
  if truthy (s3 params) then
    <["S3Key" := prop (s3 params) "key"]>
    (<["S3Bucket" := prop (s3 params) "bucket"]> o)
  else
    <["ZipFile" := match file params with
                   | Some f => contents_val (contents f)
                   | None => JUndefined
                   end]> o.

Definition updateFunctionCode_lamparams (params : Params) : JsObject :=
  add_code params
    (<["Publish" := publish params]>
    (<["FunctionName" := name params]> ∅)).

Definition updateFunctionCode (params : Params)
  : Promise W FunctionConfiguration :=
  let lamparams := updateFunctionCode_lamparams params in
  sdk (lambda_updateFunctionCode aws lamparams)
    (EvUpdateFunctionCode lamparams)
    (fun res =>
       match res with
       | inl err => reject err
       | inr data => resolve data
       end).

(** The optional fields, added the same way by
    [updateFunctionConfiguration] and [createFunction]. *)
Definition add_optional (params : Params) (o : JsObject) : JsObject :=
  let o1 :=
    if truthy (memory params)
    then <["MemorySize" := memory params]> o else o in
  let o2 :=
    if truthy (description params)
    then <["Description" := description params]> o1 else o1 in
  let o3 :=
    if truthy (timeout params)
    then <["Timeout" := timeout params]> o2 else o2 in
  if truthy (subnets params) && truthy (securityGroups params) then
    <["VpcConfig" :=
        JObj (<["SecurityGroupIds" :=
                  if typeof_string (securityGroups params)
                  then JArr [securityGroups params]
                  else securityGroups params]>
             (<["SubnetIds" :=
                  if typeof_string (subnets params)
                  then JArr [subnets params]
                  else subnets params]> ∅))]> o3
  else o3.

Definition updateFunctionConfiguration_lamparams (params : Params)
  : JsObject :=
  add_optional params
    (<["Runtime" := js_or (runtime params) DEFAULT_PARAMS.runtime]>
    (<["Handler" := js_or (handler params) DEFAULT_PARAMS.handler]>
    (<["Role" := role params]>
    (<["FunctionName" := name params]> ∅)))).

Definition updateFunctionConfiguration (params : Params)
  : Promise W FunctionConfiguration :=
  let lamparams := updateFunctionConfiguration_lamparams params in
  sdk (lambda_updateFunctionConfiguration aws lamparams)
    (EvUpdateFunctionConfiguration lamparams)
    (fun res =>
       match res with
       | inl err => reject err
       | inr data => resolve data
       end).

Definition createFunction_lamparams (params : Params) : JsObject :=
  let code : JsObject := add_code params ∅ in
  add_optional params
    (<["Publish" := publish params]>
    (<["Role" := role params]>
    (<["Runtime" := js_or (runtime params) DEFAULT_PARAMS.runtime]>
    (<["Handler" := js_or (handler params) DEFAULT_PARAMS.handler]>
    (<["FunctionName" := name params]>
    (<["Code" := JObj code]> ∅)))))).

Definition createFunction (params : Params)
  : Promise W FunctionConfiguration :=
  let lamparams := createFunction_lamparams params in
  sdk (lambda_createFunction aws lamparams)
    (EvCreateFunction lamparams)
    (fun res =>
       match res with
       | inl err => reject err
       | inr data => resolve data
       end).

Definition getAlias_lamparams (params : Params) : JsObject :=
  <["Name" := alias params]> (<["FunctionName" := name params]> ∅).

(** [getAlias] resolves with [data]; on the error whose code is
    [ResourceNotFoundException] that is [null], here [None]. *)
Definition getAlias (params : Params)
  : Promise W (option AliasConfiguration) :=
  let lamparams := getAlias_lamparams params in
  sdk (lambda_getAlias aws lamparams) (EvGetAlias lamparams)
    (fun res =>
       match res with
       | inl err =>
           if negb (String.eqb (code err) "ResourceNotFoundException")
           then reject err
           else resolve None
       | inr data => resolve (Some data)
       end).

Definition alias_lamparams (version : string) (params : Params)
  : JsObject :=
  <["Name" := alias params]>
  (<["FunctionVersion" := JStr version]>
  (<["FunctionName" := name params]> ∅)).

Definition createAlias (version : string) (params : Params)
  : Promise W AliasConfiguration :=
  let lamparams := alias_lamparams version params in
  sdk (lambda_createAlias aws lamparams) (EvCreateAlias lamparams)
    (fun res =>
       match res with
       | inl err => reject err
       | inr data => resolve data
       end).

Definition updateAlias (version : string) (params : Params)
  : Promise W AliasConfiguration :=
  let lamparams := alias_lamparams version params in
  sdk (lambda_updateAlias aws lamparams) (EvUpdateAlias lamparams)
    (fun res =>
       match res with
       | inl err => reject err
       | inr data => resolve data
       end).

(** [upsertAlias]: [!alias] holds exactly for the [null] of the
    not-found case. *)
Definition upsertAlias (version : string) (params : Params)
  : Promise W AliasConfiguration :=
  alias <- getAlias params ;;
  match alias with
  | None => createAlias version params
  | Some _ => updateAlias version params
  end.

(** The promise chain of [flush], up to the last [then]. *)
Definition chain (params : Params) : Promise W unit :=
  _ <- (_ <- resolve tt ;;
        if truthy (s3 params)
        then (_ <- s3upload params ;; resolve tt)
        else resolve tt) ;;
  hasFunction <- hasLambdaFunction (name params) ;;
  upsertedFunction <-
    (if hasFunction : bool
     then (_ <- updateFunctionConfiguration params ;;
           updateFunctionCode params)
     else createFunction params) ;;
  _ <- (if truthy (alias params)
        then (_ <- upsertAlias (Version upsertedFunction) params ;;
              resolve tt)
        else resolve tt) ;;
  resolve tt.

(** [done(err)].  With an error it is [cb(gulpError(err.message))]: when
    the message is empty [gulpError] throws inside the handler of
    [catch], and [cb] is not called. *)
Definition done (params : Params) (err : option AwsError)
    (s : Run W) : Flushed W :=
  match err with
  | Some e =>
      {| cb_error := Some (gulpError (err_message e)); pushed := [];
         calls := trace s; after := world s |}
  | None =>
      {| cb_error := None;
         pushed := match file params with Some f => [f] | None => [] end;
         calls := trace s; after := world s |}
  end.

Definition flush (params : Params) (w : W) : Flushed W :=
  match file params with
  | None =>
      {| cb_error := Some (gulpError "No code provided"); pushed := [];
         calls := []; after := w |}
  | Some f =>
      if negb (String.eqb (slice_4 (path f)) ".zip") then
        {| cb_error := Some (gulpError "Given file is not a zip");
           pushed := []; calls := []; after := w |}
      else
        match chain params {| world := w; trace := [] |} with
        | (inr _, s) => done params None s
        | (inl err, s) => done params (Some err) s
        end
  end.

(** [transform]: [inl] is the exception thrown for a stream. *)
Definition transform (params : Params) (f : File)
  : (JsError + PluginError) + Params :=
  if isNull f then inr params
  else if isStream f
       then inl (gulpError "Stream content is not supported")
       else inr (set_file params f).

(** The files written into the stream, in order; an exception thrown by
    [transform] leaves the stream without its callback, so nothing
    later runs. *)
Fixpoint write_all (params : Params) (files : list File)
  : (JsError + PluginError) + Params :=
  match files with
  | [] => inr params
  | f :: rest =>
      match transform params f with
      | inl e => inl e
      | inr params' => write_all params' rest
      end
  end.

(** The checks of [module.exports]: [inl] is the exception thrown,
    [inr] the [params] the stream's functions close over. *)
Definition module_exports (params : option Params)
    (options : option Options) : (JsError + PluginError) + Params :=
  match params with
  | None => inl (gulpError "No parameters provided")
  | Some params =>
    if negb (truthy (name params))
    then inl (gulpError "No Lambda function name provided")
    else if negb (truthy (role params))
    then inl (gulpError "No Lambda role provided")
    else match options with
    | None => inl (gulpError "No AWS options provided")
    | Some options =>
      if negb (truthy (region options))
      then inl (gulpError "No AWS region provided")
      else if negb (truthy (profile options))
      then inl (gulpError "No AWS profile provided")
      else
        let alias_check :=
          if truthy (alias params) && negb (truthy (publish params))
          then inl (gulpError
                      "An alias was provided but 'publish' was 'false'.")
          else inr params in
        if truthy (s3 params) then
          if negb (truthy (prop (s3 params) "bucket"))
          then inl (gulpError
                      "If uploading via S3, a bucket must be provided")
          else if negb (truthy (prop (s3 params) "key"))
          then inl (gulpError
                      "If uploading via S3, a key must be provided")
          else alias_check
        else alias_check
    end
  end.

(** A whole use of the plugin: build it from [params] and [options],
    write [files] into it, end the stream. *)
Definition run_plugin (params : option Params) (options : option Options)
    (files : list File) (w : W) : Outcome W :=
  match module_exports params options with
  | inl e => Threw e
  | inr params =>
      match write_all params files with
      | inl e => Threw e
      | inr params' => Ended (flush params' w)
      end
  end.

End Plugin.

(* ===================================================================== *)
(** ** A simulated platform

    A small account: the functions and aliases it holds, the version the
    next publish gives, and the operations that are out of service.  It
    answers the way the SDK does, and is used to run the plugin on
    concrete inputs. *)
(* ===================================================================== *)

Record Cloud : Type := {
  cloud_functions : list FunctionConfiguration;
  cloud_aliases : list AliasConfiguration;
  next_version : string;
  outage : list Op
}.

Definition service_error : AwsError :=
  {| code := "ServiceException"; err_message := "service unavailable" |}.

Definition alias_not_found : AwsError :=
  {| code := "ResourceNotFoundException"; err_message := "alias not found" |}.

Definition req_str (req : JsObject) (k : string) : string :=
  match req !! k with Some (JStr s) => s | _ => "" end.

Definition guarded {A : Type} (op : Op) (c : Cloud)
    (answer : (AwsError + A) * Cloud) : (AwsError + A) * Cloud :=
  if bool_decide (op ∈ outage c) then (inl service_error, c) else answer.

Definition published (req : JsObject) (c : Cloud) : FunctionConfiguration :=
  {| FunctionName := req_str req "FunctionName";
     Version := if truthy (default JUndefined (req !! "Publish"))
                then next_version c else "$LATEST" |}.

Definition with_function (fc : FunctionConfiguration) (c : Cloud) : Cloud :=
  {| cloud_functions := cloud_functions c ++ [fc];
     cloud_aliases := cloud_aliases c;
     next_version := next_version c; outage := outage c |}.

Definition with_alias (a : AliasConfiguration) (c : Cloud) : Cloud :=
  {| cloud_functions := cloud_functions c;
     cloud_aliases :=
       filter (fun b => negb (String.eqb (AliasName b) (AliasName a)))
         (cloud_aliases c) ++ [a];
     next_version := next_version c; outage := outage c |}.

Definition alias_of (req : JsObject) : AliasConfiguration :=
  {| AliasName := req_str req "Name";
     FunctionVersion := req_str req "FunctionVersion" |}.

Definition cloud : Platform Cloud := {|
  s3_putObject := fun req c =>
    guarded PutObject c (inr {| ETag := "etag" |}, c);
  lambda_listFunctions := fun req c =>
    guarded ListFunctions c (inr (cloud_functions c), c);
  lambda_createFunction := fun req c =>
    guarded CreateFunction c
      (inr (published req c), with_function (published req c) c);
  lambda_updateFunctionConfiguration := fun req c =>
    guarded UpdateFunctionConfiguration c
      (inr {| FunctionName := req_str req "FunctionName";
              Version := "$LATEST" |}, c);
  lambda_updateFunctionCode := fun req c =>
    guarded UpdateFunctionCode c (inr (published req c), c);
  lambda_getAlias := fun req c =>
    guarded GetAlias c
      (match List.find (fun a => String.eqb (AliasName a) (req_str req "Name"))
               (cloud_aliases c) with
       | Some a => (inr a, c)
       | None => (inl alias_not_found, c)
       end);
  lambda_createAlias := fun req c =>
    guarded CreateAlias c (inr (alias_of req), with_alias (alias_of req) c);
  lambda_updateAlias := fun req c =>
    guarded UpdateAlias c (inr (alias_of req), with_alias (alias_of req) c)
|}.

(** Concrete inputs. *)
Definition no_params : Params :=
  {| name := JUndefined; role := JUndefined; handler := JUndefined;
     runtime := JUndefined; memory := JUndefined; description := JUndefined;
     timeout := JUndefined; subnets := JUndefined;
     securityGroups := JUndefined; s3 := JUndefined; publish := JUndefined;
     alias := JUndefined; file := None |}.

Definition f_r : Params :=
  {| name := JStr "f"; role := JStr "r"; handler := JUndefined;
     runtime := JUndefined; memory := JUndefined; description := JUndefined;
     timeout := JUndefined; subnets := JUndefined;
     securityGroups := JUndefined; s3 := JUndefined;
     publish := JBool false; alias := JUndefined; file := None |}.

Definition f_r_live : Params :=
  {| name := JStr "f"; role := JStr "r"; handler := JUndefined;
     runtime := JUndefined; memory := JUndefined; description := JUndefined;
     timeout := JUndefined; subnets := JUndefined;
     securityGroups := JUndefined; s3 := JUndefined;
     publish := JBool true; alias := JStr "live"; file := None |}.

Definition b_k : JsVal :=
  JObj (<["key" := JStr "k"]> (<["bucket" := JStr "b"]> ∅)).

Definition f_r_staged : Params :=
  {| name := JStr "f"; role := JStr "r"; handler := JUndefined;
     runtime := JUndefined; memory := JUndefined; description := JUndefined;
     timeout := JUndefined; subnets := JUndefined;
     securityGroups := JUndefined; s3 := b_k;
     publish := JUndefined; alias := JUndefined; file := None |}.

Definition aws_options : Options :=
  {| region := JStr "eu-west-1"; profile := JStr "default" |}.

Definition package_zip : File :=
  {| path := "dist/package.zip"; contents := Buffer [Byte.x50; Byte.x4b] |}.

Definition old_zip : File :=
  {| path := "dist/old.zip"; contents := Buffer [Byte.x00] |}.

Definition empty_dir : File := {| path := "dist"; contents := Null |}.

Definition readme_md : File :=
  {| path := "README.md"; contents := Buffer [Byte.x23] |}.

Definition empty_account : Cloud :=
  {| cloud_functions := []; cloud_aliases := []; next_version := "1";
     outage := [] |}.

Definition account_with_f : Cloud :=
  {| cloud_functions := [{| FunctionName := "f"; Version := "$LATEST" |}];
     cloud_aliases := []; next_version := "3"; outage := [] |}.

Definition account_with_f_live : Cloud :=
  {| cloud_functions := [{| FunctionName := "f"; Version := "$LATEST" |}];
     cloud_aliases := [{| AliasName := "live"; FunctionVersion := "2" |}];
     next_version := "3"; outage := [] |}.

Definition account_down (ops : list Op) (c : Cloud) : Cloud :=
  {| cloud_functions := cloud_functions c; cloud_aliases := cloud_aliases c;
     next_version := next_version c; outage := ops |}.

(** The plugin on the simulated platform. *)
Definition deploy (p : Params) (files : list File) (c : Cloud)
  : Outcome Cloud :=
  run_plugin cloud (Some p) (Some aws_options) files c.

(** The operations of a run, in order, each with whether it succeeded. *)
Definition ops_of {W} (o : Outcome W) : list (Op * bool) :=
  match o with
  | Threw _ => []
  | Ended r => map (fun e => (ev_op e, ev_ok e)) (calls r)
  end.

(* ===================================================================== *)
(** ** Vocabulary of the properties *)
(* ===================================================================== *)

(** The orchestrator's stages: 0 stage the artifact, 1 locate the
    function, 2 reconcile the function, 3 reconcile the alias. *)
Definition stage (op : Op) : nat :=
  match op with
  | PutObject => 0
  | ListFunctions => 1
  | CreateFunction | UpdateFunctionConfiguration | UpdateFunctionCode => 2
  | GetAlias | CreateAlias | UpdateAlias => 3
  end.

(** The not-found condition of the alias lookup. *)
Definition not_found (err : AwsError) : bool :=
  String.eqb (code err) "ResourceNotFoundException".

(** A call that failed, the alias lookup's not-found answer apart: that
    one selects a branch. *)
Definition fatal (e : Event) : bool :=
  match e with
  | EvGetAlias _ (inl err) => negb (not_found err)
  | _ => negb (ev_ok e)
  end.

(** How many calls of one operation a run made. *)
Definition count_op (op : Op) (tr : list Event) : nat :=
  length (filter (fun e => ev_op e = op) tr).

(** The version a successful create or code update returned. *)
Definition produced_version (e : Event) : option string :=
  match e with
  | EvCreateFunction _ (inr data) | EvUpdateFunctionCode _ (inr data) =>
      Some (Version data)
  | _ => None
  end.

(** The object holding the code of a code-carrying call: [Code] of a
    creation, the request itself of a code update. *)
Definition code_of (e : Event) : option JsObject :=
  match e with
  | EvCreateFunction req _ =>
      match req !! "Code" with Some (JObj code) => Some code | _ => None end
  | EvUpdateFunctionCode req _ => Some req
  | _ => None
  end.

(** The path ends in the archive extension. *)
Definition ends_with_zip (s : string) : Prop :=
  exists pre : string, s = String.append pre ".zip".

(** The file a run deploys: the last written file that is not null,
    the one already in [params.file] when there is none. *)
Definition artifact (params : Params) (files : list File) : option File :=
  match last (filter (fun f => isNull f = false) files) with
  | Some f => Some f
  | None => file params
  end.

(** [typeof v === 'string' ? [v] : v] *)
Definition as_list (v : JsVal) : JsVal :=
  if typeof_string v then JArr [v] else v.

(** [params] with other VPC settings. *)
Definition set_vpc (params : Params) (sn sg : JsVal) : Params :=
  {| name := name params; role := role params; handler := handler params;
     runtime := runtime params; memory := memory params;
     description := description params; timeout := timeout params;
     subnets := sn; securityGroups := sg;
     s3 := s3 params; publish := publish params; alias := alias params;
     file := file params |}.

(** [params] with [params.file] replaced. *)
Definition with_file (params : Params) (fo : option File) : Params :=
  {| name := name params; role := role params; handler := handler params;
     runtime := runtime params; memory := memory params;
     description := description params; timeout := timeout params;
     subnets := subnets params; securityGroups := securityGroups params;
     s3 := s3 params; publish := publish params; alias := alias params;
     file := fo |}.

(** The names [add_optional] may set. *)
Definition optional_names : list string :=
  ["MemorySize"; "Description"; "Timeout"; "VpcConfig"].

(** The names [add_code] may set. *)
Definition code_names : list string := ["S3Bucket"; "S3Key"; "ZipFile"].

(** The VPC settings of a request. *)
Definition vpc_config (sn sg : JsVal) : JsVal :=
  JObj (<["SecurityGroupIds" := as_list sg]>
       (<["SubnetIds" := as_list sn]> ∅)).

(** The remote calls of a whole use of the plugin. *)
Definition remote_calls {W} (o : Outcome W) : list Event :=
  match o with
  | Threw _ => []
  | Ended r => calls r
  end.

(* ===================================================================== *)
(** ** Strings: the archive extension *)
(* ===================================================================== *)

Lemma substring_all (s : string) : String.substring 0 (String.length s) s = s.
Proof. induction s as [|c s IH]; simpl; [reflexivity | now rewrite IH]. Qed.

Lemma substring_skip (pre t : string) :
  String.substring (String.length pre) (String.length t) (String.append pre t)
  = t.
Proof.
  induction pre as [|c pre IH]; simpl; [apply substring_all | exact IH].
Qed.

Lemma append_length (a b : string) :
  String.length (String.append a b) = String.length a + String.length b.
Proof.
  induction a as [|c a IH]; simpl; [reflexivity | f_equal; exact IH].
Qed.

Lemma append_cons (c : Ascii.ascii) (a b : string) :
  String.append (String c a) b = String c (String.append a b).
Proof. reflexivity. Qed.

Lemma substring_split (n : nat) (s : string) :
  n <= String.length s ->
  s = String.append (String.substring 0 n s)
        (String.substring n (String.length s - n) s).
Proof.
  revert n; induction s as [|c s IH]; intros [|n] Hn; simpl in *;
    try reflexivity; try lia.
  - now rewrite substring_all.
  - rewrite append_cons. f_equal. apply IH. lia.
Qed.

Lemma substring_short (m : nat) (s : string) :
  String.length s <= m -> String.substring 0 m s = s.
Proof.
  revert m; induction s as [|c s IH]; intros [|m] Hm; simpl in *;
    try reflexivity; try lia.
  f_equal. apply IH. lia.
Qed.

(** [path.slice(-4) === '.zip'] says that the path ends in [.zip]. *)
Lemma slice_4_zip (s : string) : slice_4 s = ".zip" <-> ends_with_zip s.
Proof.
  unfold slice_4, ends_with_zip. split.
  - intros H.
    destruct (le_lt_dec 4 (String.length s)) as [Hlen|Hlen].
    + exists (String.substring 0 (String.length s - 4) s).
      pose proof (substring_split (String.length s - 4) s) as Hs.
      replace (String.length s - (String.length s - 4)) with 4 in Hs by lia.
      rewrite H in Hs. apply Hs. lia.
    + replace (String.length s - 4) with 0 in H by lia.
      rewrite substring_short in H by lia.
      subst s. simpl in Hlen. lia.
  - intros [pre ->]. rewrite append_length. simpl String.length.
    replace (String.length pre + 4 - 4) with (String.length pre) by lia.
    apply (substring_skip pre ".zip").
Qed.

(* ===================================================================== *)
(** ** The request objects *)
(* ===================================================================== *)

Ltac map_cases :=
  repeat match goal with
    | |- context [if ?b then _ else _] => destruct b eqn:?
    end;
  simplify_map_eq; try done.

Lemma add_optional_other (p : Params) (o : JsObject) (k : string) :
  k ∉ optional_names -> add_optional p o !! k = o !! k.
Proof.
  unfold optional_names. intros Hk.
  assert (k ≠ "MemorySize" /\ k ≠ "Description" /\ k ≠ "Timeout"
          /\ k ≠ "VpcConfig") as (H1 & H2 & H3 & H4).
  { repeat split; intros ->; apply Hk; set_solver. }
  unfold add_optional. map_cases.
Qed.

Lemma add_optional_MemorySize (p : Params) (o : JsObject) :
  o !! "MemorySize" = None ->
  add_optional p o !! "MemorySize"
  = if truthy (memory p) then Some (memory p) else None.
Proof. intros Ho. unfold add_optional. map_cases. Qed.

Lemma add_optional_Description (p : Params) (o : JsObject) :
  o !! "Description" = None ->
  add_optional p o !! "Description"
  = if truthy (description p) then Some (description p) else None.
Proof. intros Ho. unfold add_optional. map_cases. Qed.

Lemma add_optional_Timeout (p : Params) (o : JsObject) :
  o !! "Timeout" = None ->
  add_optional p o !! "Timeout"
  = if truthy (timeout p) then Some (timeout p) else None.
Proof. intros Ho. unfold add_optional. map_cases. Qed.

Lemma add_optional_VpcConfig (p : Params) (o : JsObject) :
  o !! "VpcConfig" = None ->
  add_optional p o !! "VpcConfig"
  = if truthy (subnets p) && truthy (securityGroups p)
    then Some (vpc_config (subnets p) (securityGroups p))
    else None.
Proof.
  intros Ho. unfold add_optional, vpc_config, as_list.
  destruct (truthy (subnets p) && truthy (securityGroups p)) eqn:Hv.
  - apply lookup_insert_eq.
  - map_cases.
Qed.

Lemma add_code_other (p : Params) (o : JsObject) (k : string) :
  k ∉ code_names -> add_code p o !! k = o !! k.
Proof.
  unfold code_names. intros Hk.
  assert (k ≠ "S3Bucket" /\ k ≠ "S3Key" /\ k ≠ "ZipFile") as (H1 & H2 & H3).
  { repeat split; intros ->; apply Hk; set_solver. }
  unfold add_code. map_cases.
Qed.

(** The code part: the location when [params.s3] is there, the file's
    contents when it is not. *)
Lemma add_code_spec (p : Params) (o : JsObject) :
  o !! "S3Bucket" = None -> o !! "S3Key" = None -> o !! "ZipFile" = None ->
  if truthy (s3 p)
  then add_code p o !! "S3Bucket" = Some (prop (s3 p) "bucket") /\
       add_code p o !! "S3Key" = Some (prop (s3 p) "key") /\
       add_code p o !! "ZipFile" = None
  else add_code p o !! "S3Bucket" = None /\
       add_code p o !! "S3Key" = None /\
       add_code p o !! "ZipFile"
       = Some (match file p with
               | Some f => contents_val (contents f)
               | None => JUndefined
               end).
Proof.
  intros H1 H2 H3. unfold add_code.
  destruct (truthy (s3 p)); repeat split; simplify_map_eq; done.
Qed.

Lemma configuration_lookup (p : Params) (k : string) :
  k ∉ optional_names ->
  updateFunctionConfiguration_lamparams p !! k
  = (<["Runtime" := js_or (runtime p) DEFAULT_PARAMS.runtime]>
    (<["Handler" := js_or (handler p) DEFAULT_PARAMS.handler]>
    (<["Role" := role p]>
    (<["FunctionName" := name p]> (∅ : JsObject))))) !! k.
Proof. apply add_optional_other. Qed.

Lemma creation_lookup (p : Params) (k : string) :
  k ∉ optional_names ->
  createFunction_lamparams p !! k
  = (<["Publish" := publish p]>
    (<["Role" := role p]>
    (<["Runtime" := js_or (runtime p) DEFAULT_PARAMS.runtime]>
    (<["Handler" := js_or (handler p) DEFAULT_PARAMS.handler]>
    (<["FunctionName" := name p]>
    (<["Code" := JObj (add_code p ∅)]> (∅ : JsObject))))))) !! k.
Proof. apply add_optional_other. Qed.

Lemma code_update_lookup (p : Params) (k : string) :
  k ∉ code_names ->
  updateFunctionCode_lamparams p !! k
  = (<["Publish" := publish p]>
    (<["FunctionName" := name p]> (∅ : JsObject))) !! k.
Proof. apply add_code_other. Qed.

Ltac not_listed :=
  unfold optional_names, code_names;
  repeat (apply not_elem_of_cons; split; [discriminate|]);
  apply not_elem_of_nil.

(** The configuration update carries no publish flag; the code update
    does. *)
Lemma configuration_has_no_Publish (p : Params) :
  updateFunctionConfiguration_lamparams p !! "Publish" = None.
Proof. rewrite configuration_lookup by not_listed. by simplify_map_eq. Qed.

Lemma code_update_Publish (p : Params) :
  updateFunctionCode_lamparams p !! "Publish" = Some (publish p).
Proof. rewrite code_update_lookup by not_listed. by simplify_map_eq. Qed.

Lemma code_update_FunctionName (p : Params) :
  updateFunctionCode_lamparams p !! "FunctionName" = Some (name p).
Proof. rewrite code_update_lookup by not_listed. by simplify_map_eq. Qed.

Lemma creation_Code (p : Params) :
  createFunction_lamparams p !! "Code" = Some (JObj (add_code p ∅)).
Proof. rewrite creation_lookup by not_listed. by simplify_map_eq. Qed.

Lemma getAlias_request (p : Params) :
  getAlias_lamparams p !! "FunctionName" = Some (name p) /\
  getAlias_lamparams p !! "Name" = Some (alias p).
Proof. unfold getAlias_lamparams. split; by simplify_map_eq. Qed.

Lemma alias_request (v : string) (p : Params) :
  alias_lamparams v p !! "FunctionName" = Some (name p) /\
  alias_lamparams v p !! "FunctionVersion" = Some (JStr v) /\
  alias_lamparams v p !! "Name" = Some (alias p).
Proof. unfold alias_lamparams. repeat split; by simplify_map_eq. Qed.

(* ===================================================================== *)
(** ** The stream: which file is kept *)
(* ===================================================================== *)

Lemma with_file_same (p : Params) : with_file p (file p) = p.
Proof. destruct p; reflexivity. Qed.

Lemma artifact_nil (p : Params) : artifact p [] = file p.
Proof. reflexivity. Qed.

Lemma artifact_cons_null (p : Params) (f : File) (files : list File) :
  isNull f = true -> artifact p (f :: files) = artifact p files.
Proof.
  intros Hf. unfold artifact. rewrite filter_cons.
  destruct (decide (isNull f = false)); [congruence | reflexivity].
Qed.

Lemma artifact_cons_kept (p : Params) (f : File) (files : list File) :
  isNull f = false ->
  artifact p (f :: files) = artifact (set_file p f) files.
Proof.
  intros Hf. unfold artifact. rewrite filter_cons.
  destruct (decide (isNull f = false)) as [_|N]; [|congruence].
  destruct (filter (λ g, isNull g = false) files) as [|g l];
    [reflexivity | rewrite last_cons_cons].
  destruct (last (g :: l)) eqn:E; [reflexivity|].
  apply last_None in E. discriminate E.
Qed.

(** Writing files that are not streams keeps [params] as it was, with the
    deployed file in [params.file]. *)
Lemma write_all_spec (files : list File) (p : Params) :
  Forall (fun f => isStream f = false) files ->
  write_all p files = inr (with_file p (artifact p files)).
Proof.
  intros Hs. revert p. induction Hs as [|f files Hf _ IH]; intros p.
  - cbn. now rewrite with_file_same.
  - cbn. unfold transform. destruct (isNull f) eqn:Hn.
    + rewrite IH. now rewrite artifact_cons_null.
    + rewrite Hf, IH. now rewrite artifact_cons_kept.
Qed.

(** A stream among the files makes [transform] throw. *)
Lemma write_all_stream (files : list File) (p : Params) :
  Exists (fun f => isStream f = true) files ->
  write_all p files = inl (gulpError "Stream content is not supported").
Proof.
  intros Hs. revert p. induction files as [|f files IH]; intros p.
  - inversion Hs.
  - cbn. unfold transform.
    destruct (isNull f) eqn:Hn; destruct (isStream f) eqn:Hst; try reflexivity.
    + unfold isNull, isStream in *. destruct (contents f); discriminate.
    + apply IH. inversion Hs; subst; [congruence | assumption].
    + apply IH. inversion Hs; subst; [congruence | assumption].
Qed.

Lemma write_all_inr (files : list File) (p q : Params) :
  write_all p files = inr q ->
  Forall (fun f => isStream f = false) files.
Proof.
  intros Hw. apply Forall_forall. intros f Hf.
  destruct (isStream f) eqn:Hst; [|reflexivity].
  rewrite write_all_stream in Hw; [discriminate|].
  apply Exists_exists. eauto.
Qed.

(** The test for streams among the written files. *)
Lemma no_stream (files : list File) :
  forallb (fun g => negb (isStream g)) files = true ->
  Forall (fun g => isStream g = false) files.
Proof.
  induction files as [|g files IH]; cbn; intros H; constructor.
  - destruct (isStream g); [discriminate H | reflexivity].
  - apply IH. destruct (isStream g); [discriminate H | exact H].
Qed.

Lemma some_stream (files : list File) :
  forallb (fun g => negb (isStream g)) files = false ->
  Exists (fun g => isStream g = true) files.
Proof.
  induction files as [|g files IH]; cbn; intros H; [discriminate H|].
  destruct (isStream g) eqn:Hg.
  - now constructor.
  - apply Exists_cons_tl, IH, H.
Qed.

(** The checks of [module.exports] pass [params] on unchanged, and then
    the staging location is complete and an alias comes with publish. *)
Lemma module_exports_inr (p q : Params) (o : option Options) :
  module_exports (Some p) o = inr q ->
  q = p /\ truthy (name p) = true /\ truthy (role p) = true /\
  (truthy (s3 p) = true ->
     truthy (prop (s3 p) "bucket") = true /\
     truthy (prop (s3 p) "key") = true) /\
  (truthy (alias p) = true -> truthy (publish p) = true).
Proof.
  unfold module_exports. intros H.
  destruct (truthy (name p)); [|discriminate H].
  destruct (truthy (role p)); [|discriminate H].
  destruct o as [o|]; [|discriminate H].
  destruct (truthy (region o)); [|discriminate H].
  destruct (truthy (profile o)); [|discriminate H].
  cbn in H.
  destruct (truthy (s3 p)); cbn in H;
    [destruct (truthy (prop (s3 p) "bucket")); [|discriminate H];
     destruct (truthy (prop (s3 p) "key")); [|discriminate H]; cbn in H |];
    (destruct (truthy (alias p)); cbn in H;
     [destruct (truthy (publish p)); [|discriminate H] |]);
    injection H as <-; repeat split; intros; congruence.
Qed.

(** What a creation carries. *)
Lemma creation_request (p : Params) :
  let creation := createFunction_lamparams p in
  creation !! "Code" = Some (JObj (add_code p ∅)) /\
  creation !! "FunctionName" = Some (name p) /\
  creation !! "Handler"
    = Some (if truthy (handler p) then handler p else JStr "index.handler") /\
  creation !! "Runtime"
    = Some (if truthy (runtime p) then runtime p else JStr "nodejs4.3") /\
  creation !! "Role" = Some (role p) /\
  creation !! "Publish" = Some (publish p) /\
  creation !! "MemorySize"
    = (if truthy (memory p) then Some (memory p) else None) /\
  creation !! "Description"
    = (if truthy (description p) then Some (description p) else None) /\
  creation !! "Timeout"
    = (if truthy (timeout p) then Some (timeout p) else None) /\
  creation !! "VpcConfig"
    = (if truthy (subnets p) && truthy (securityGroups p)
       then Some (vpc_config (subnets p) (securityGroups p))
       else None).
Proof.
  cbn zeta.
  rewrite !creation_lookup by not_listed.
  unfold createFunction_lamparams.
  rewrite add_optional_MemorySize, add_optional_Description,
    add_optional_Timeout, add_optional_VpcConfig by (by simplify_map_eq).
  repeat split; by simplify_map_eq.
Qed.

(** What a configuration update carries. *)
Lemma configuration_request (p : Params) :
  let req := updateFunctionConfiguration_lamparams p in
  req !! "FunctionName" = Some (name p) /\
  req !! "Role" = Some (role p) /\
  req !! "Handler"
    = Some (if truthy (handler p) then handler p else JStr "index.handler") /\
  req !! "Runtime"
    = Some (if truthy (runtime p) then runtime p else JStr "nodejs4.3") /\
  req !! "MemorySize"
    = (if truthy (memory p) then Some (memory p) else None) /\
  req !! "Description"
    = (if truthy (description p) then Some (description p) else None) /\
  req !! "Timeout"
    = (if truthy (timeout p) then Some (timeout p) else None) /\
  req !! "VpcConfig"
    = (if truthy (subnets p) && truthy (securityGroups p)
       then Some (vpc_config (subnets p) (securityGroups p))
       else None).
Proof.
  cbn zeta.
  rewrite !configuration_lookup by not_listed.
  unfold updateFunctionConfiguration_lamparams.
  rewrite add_optional_MemorySize, add_optional_Description,
    add_optional_Timeout, add_optional_VpcConfig by (by simplify_map_eq).
  repeat split; by simplify_map_eq.
Qed.

(** The code a code update carries. *)
Lemma code_update_code (p : Params) :
  let req := updateFunctionCode_lamparams p in
  if truthy (s3 p)
  then req !! "S3Bucket" = Some (prop (s3 p) "bucket") /\
       req !! "S3Key" = Some (prop (s3 p) "key") /\
       req !! "ZipFile" = None
  else req !! "S3Bucket" = None /\
       req !! "S3Key" = None /\
       req !! "ZipFile"
       = Some (match file p with
               | Some f => contents_val (contents f)
               | None => JUndefined
               end).
Proof. apply add_code_spec; by simplify_map_eq. Qed.

(** The file a run deploys is a Buffer, when no stream was written and
    [params.file] held nothing else before. *)
Lemma artifact_buffer (p : Params) (files : list File) (f : File) :
  Forall (fun g => isStream g = false) files ->
  (forall g, file p = Some g -> isBuffer g = true) ->
  artifact p files = Some f ->
  exists bytes, contents f = Buffer bytes.
Proof.
  intros Hs Hp Ha.
  assert (isBuffer f = true) as Hb.
  { unfold artifact in Ha.
    destruct (last (filter (λ g, isNull g = false) files)) as [g|] eqn:E.
    - injection Ha as ->. apply last_Some_elem_of in E.
      apply list_elem_of_filter in E as [Hn Hin].
      rewrite Forall_forall in Hs. specialize (Hs f Hin).
      unfold isBuffer, isNull, isStream in *.
      destruct (contents f); congruence.
    - auto. }
  unfold isBuffer in Hb. destruct (contents f) as [|bytes|]; try discriminate.
  eauto.
Qed.

(* ===================================================================== *)
(** ** More on the request objects and the stream *)
(* ===================================================================== *)

(** What [s3upload] puts in [s3params]. *)
Lemma s3upload_request (p : Params) :
  s3upload_s3params p !! "Bucket" = Some (prop (s3 p) "bucket") /\
  s3upload_s3params p !! "Key" = Some (prop (s3 p) "key") /\
  s3upload_s3params p !! "Body"
  = Some (match file p with
          | Some f => contents_val (contents f)
          | None => JUndefined
          end) /\
  (forall k, k ∉ ["Bucket"; "Key"; "Body"] -> s3upload_s3params p !! k = None).
Proof.
  unfold s3upload_s3params.
  split; [by simplify_map_eq|]. split; [by simplify_map_eq|].
  split; [by simplify_map_eq|].
  intros k Hk. rewrite !not_elem_of_cons in Hk.
  destruct Hk as (K1 & K2 & K3 & _).
  rewrite !lookup_insert_ne by auto. apply lookup_empty.
Qed.

(** A name outside those of [add_code] and of the literal is not in the
    request of a code update. *)
Lemma code_update_other (p : Params) (k : string) :
  k ∉ ["FunctionName"; "Publish"; "S3Bucket"; "S3Key"; "ZipFile"] ->
  updateFunctionCode_lamparams p !! k = None.
Proof.
  intros Hk. rewrite !not_elem_of_cons in Hk.
  destruct Hk as (K1 & K2 & K3 & K4 & K5 & _).
  rewrite code_update_lookup.
  - rewrite !lookup_insert_ne by auto. apply lookup_empty.
  - unfold code_names. rewrite !not_elem_of_cons.
    repeat (split; [assumption|]). apply not_elem_of_nil.
Qed.

Lemma creation_other (p : Params) (k : string) :
  k ∉ ["Code"; "FunctionName"; "Handler"; "Runtime"; "Role"; "Publish";
       "MemorySize"; "Description"; "Timeout"; "VpcConfig"] ->
  createFunction_lamparams p !! k = None.
Proof.
  intros Hk. rewrite !not_elem_of_cons in Hk.
  destruct Hk as (K1 & K2 & K3 & K4 & K5 & K6 & K7 & K8 & K9 & K10 & _).
  rewrite creation_lookup.
  - rewrite !lookup_insert_ne by auto. apply lookup_empty.
  - unfold optional_names. rewrite !not_elem_of_cons.
    repeat (split; [assumption|]). apply not_elem_of_nil.
Qed.

(** The [Code] object of a creation holds nothing but the code. *)
Lemma creation_code_other (p : Params) (k : string) :
  k ∉ code_names -> add_code p ∅ !! k = None.
Proof. intros Hk. rewrite add_code_other by assumption. apply lookup_empty. Qed.

Lemma getAlias_other (p : Params) (k : string) :
  k ∉ ["FunctionName"; "Name"] -> getAlias_lamparams p !! k = None.
Proof.
  intros Hk. rewrite !not_elem_of_cons in Hk. destruct Hk as (K1 & K2 & _).
  unfold getAlias_lamparams.
  rewrite !lookup_insert_ne by auto. apply lookup_empty.
Qed.

Lemma alias_other (v : string) (p : Params) (k : string) :
  k ∉ ["FunctionName"; "FunctionVersion"; "Name"] ->
  alias_lamparams v p !! k = None.
Proof.
  intros Hk. rewrite !not_elem_of_cons in Hk.
  destruct Hk as (K1 & K2 & K3 & _).
  unfold alias_lamparams.
  rewrite !lookup_insert_ne by auto. apply lookup_empty.
Qed.

(** The boolean test for a stream among the written files. *)
Lemma stream_among (files : list File) :
  existsb isStream files = true ->
  Exists (fun g => isStream g = true) files.
Proof.
  induction files as [|g files IH]; cbn; intros H; [discriminate H|].
  destruct (isStream g) eqn:Hg.
  - now constructor.
  - apply Exists_cons_tl, IH, H.
Qed.

(** [gulpError] returns the plugin's error for a message that is not
    empty, and throws for the empty one. *)
Lemma gulpError_inr (msg : string) :
  msg <> "" ->
  gulpError msg = inr {| plugin := "gulp-lambda-deploy"; message := msg |}.
Proof.
  intros Hm. unfold gulpError. destruct (String.eqb msg "") eqn:E.
  - apply String.eqb_eq in E. contradiction.
  - reflexivity.
Qed.

Lemma gulpError_empty :
  gulpError "" = inl {| error_message := "Missing error message" |}.
Proof. reflexivity. Qed.

(** What [module.exports] throws is always the plugin's error: every
    message it passes to [gulpError] is a literal that is not empty. *)
Lemma module_exports_throws (po : option Params) (oo : option Options)
    (x : JsError + PluginError) :
  module_exports po oo = inl x -> exists e : PluginError, x = inr e.
Proof.
  unfold module_exports. intros H.
  repeat match type of H with
    | context [match ?o with Some _ => _ | None => _ end] => destruct o
    | context [if ?b then _ else _] => destruct b
    | _ => progress cbn in H
    end;
    first [discriminate H | injection H as <-; eexists; reflexivity].
Qed.

(* ===================================================================== *)
(** ** Running [flush] symbolically *)
(* ===================================================================== *)

#[local] Opaque s3upload_s3params updateFunctionCode_lamparams
  updateFunctionConfiguration_lamparams createFunction_lamparams
  getAlias_lamparams alias_lamparams slice_4 gulpError.

Ltac unfold_run :=
  unfold flush, done, chain, upsertAlias, getAlias, createAlias, updateAlias,
    createFunction, updateFunctionCode, updateFunctionConfiguration,
    hasLambdaFunction, s3upload, then_, sdk, resolve, reject.

(** One step: settle the next test of the source or the next answer of
    the platform. *)
Ltac step_run :=
  match goal with
  | |- context [file ?p] => destruct (file p) as [?f|] eqn:?
  | |- context [String.eqb ?a ?b] => destruct (String.eqb a b) eqn:?
  | |- context [truthy ?v] => destruct (truthy v) eqn:?
  | |- context [scan_functions ?a ?b] => destruct (scan_functions a b) eqn:?
  | |- context [s3_putObject ?a ?r ?w] =>
      destruct (s3_putObject a r w) as [[?err|?data] ?w] eqn:?
  | |- context [lambda_listFunctions ?a ?r ?w] =>
      destruct (lambda_listFunctions a r w) as [[?err|?data] ?w] eqn:?
  | |- context [lambda_createFunction ?a ?r ?w] =>
      destruct (lambda_createFunction a r w) as [[?err|?data] ?w] eqn:?
  | |- context [lambda_updateFunctionConfiguration ?a ?r ?w] =>
      destruct (lambda_updateFunctionConfiguration a r w)
        as [[?err|?data] ?w] eqn:?
  | |- context [lambda_updateFunctionCode ?a ?r ?w] =>
      destruct (lambda_updateFunctionCode a r w) as [[?err|?data] ?w] eqn:?
  | |- context [lambda_getAlias ?a ?r ?w] =>
      destruct (lambda_getAlias a r w) as [[?err|?data] ?w] eqn:?
  | |- context [lambda_createAlias ?a ?r ?w] =>
      destruct (lambda_createAlias a r w) as [[?err|?data] ?w] eqn:?
  | |- context [lambda_updateAlias ?a ?r ?w] =>
      destruct (lambda_updateAlias a r w) as [[?err|?data] ?w] eqn:?
  end.

Ltac run_flush := unfold_run; repeat (cbn; step_run); cbn.

(** A position in an explicit list. *)
Ltac at_position :=
  repeat match goal with
    | H : [] !! _ = Some _ |- _ => discriminate H
    | H : (_ :: _) !! ?i = Some _ |- _ =>
        destruct i; cbn in H; [simplify_eq | ]
    | H : _ ∈ [] |- _ => apply elem_of_nil in H; destruct H
    | H : _ ∈ _ :: _ |- _ =>
        apply elem_of_cons in H; destruct H as [-> | H]
    end.

Ltac use_tests :=
  unfold fatal, not_found in *; cbn in *;
  repeat match goal with
    | H : String.eqb _ _ = _ |- _ => rewrite H in *; clear H
    | H : truthy _ = _ |- _ => rewrite H in *; clear H
    end; cbn in *.

Section Orchestration.
Context {W : Type} (aws : Platform W).

(** C1: the calls of a run follow the stages in order: staging only
    when [params.s3] is there and then first, the lookup, the function,
    the alias only when [params.alias] is there.  A run whose file passed
    the checks of [flush] makes a first call; the lookup comes first or
    right after a successful upload, a call on the function only after a
    successful lookup, a call on the alias only after a successful
    creation or code update.  A failed call is the last call of the run,
    nothing is pushed, and the run ends as [done(err)] does; a run stops
    short only on a failed call, and one that does not fail makes every
    stage's call; after a failed lookup no creation, update or alias call
    is made. *)
Theorem stages_run_in_order (p : Params) (w : W) :
  let r := flush aws p w in
  (forall i j a b, i < j -> calls r !! i = Some a -> calls r !! j = Some b ->
     stage (ev_op a) <= stage (ev_op b)) /\
  (forall i e, calls r !! i = Some e -> ev_op e = PutObject ->
     truthy (s3 p) = true /\ i = 0) /\
  (truthy (s3 p) = true ->
     forall e, calls r !! 0 = Some e -> ev_op e = PutObject) /\
  (forall i e, calls r !! i = Some e -> stage (ev_op e) = 3 ->
     truthy (alias p) = true) /\
  (forall i e, calls r !! i = Some e -> fatal e = true ->
     length (calls r) = S i /\ pushed r = [] /\
     exists err, ev_err e = Some err /\
                 cb_error r = Some (gulpError (err_message err))) /\
  (cb_error r = None ->
     count_op PutObject (calls r) = (if truthy (s3 p) then 1 else 0) /\
     count_op ListFunctions (calls r) = 1 /\
     count_op CreateFunction (calls r)
       + count_op UpdateFunctionCode (calls r) = 1 /\
     count_op GetAlias (calls r) = (if truthy (alias p) then 1 else 0)) /\
  (cb_error r <> None ->
     calls r = [] \/ exists e, last (calls r) = Some e /\ fatal e = true) /\
  (forall i req err, calls r !! i = Some (EvListFunctions req (inl err)) ->
     forall e, e ∈ calls r ->
       ev_op e = PutObject \/ ev_op e = ListFunctions) /\
  (forall f, file p = Some f -> ends_with_zip (path f) ->
     (exists e, calls r !! 0 = Some e /\
                ev_op e = if truthy (s3 p) then PutObject
                          else ListFunctions) /\
     (cb_error r <> None ->
        exists e, last (calls r) = Some e /\ fatal e = true)) /\
  (forall j e, calls r !! j = Some e -> ev_op e = ListFunctions ->
     if truthy (s3 p)
     then j = 1 /\ exists req data,
            calls r !! 0 = Some (EvPutObject req (inr data))
     else j = 0) /\
  (forall j e, calls r !! j = Some e -> stage (ev_op e) = 2 ->
     exists i req fs,
       i < j /\ calls r !! i = Some (EvListFunctions req (inr fs))) /\
  (forall j e, calls r !! j = Some e -> stage (ev_op e) = 3 ->
     exists i e' v,
       i < j /\ calls r !! i = Some e' /\ produced_version e' = Some v).
Proof.
  cbn zeta. run_flush.
  all: (split;
    [solve [intros i j a b Hij Hi Hj; at_position; cbn; lia] |]).
  all: (split;
    [solve [intros i e Hi Ho; at_position; try discriminate Ho; auto] |]).
  all: (split;
    [solve [intros Hs e He; try discriminate; injection He as <-;
            reflexivity] |]).
  all: (split;
    [solve [intros i e Hi Ho; at_position; try discriminate Ho; auto] |]).
  all: (split;
    [solve [intros i e Hi Hf; at_position; use_tests;
            try discriminate Hf; eauto] |]).
  all: (split; [solve [intros Hc; try discriminate Hc; cbn; auto] |]).
  all: (split;
    [solve [intros Hc;
            first [ exfalso; apply Hc; reflexivity
                  | left; reflexivity
                  | right; eexists; split;
                    [reflexivity | use_tests; reflexivity] ]] |]).
  all: (split;
    [solve [intros i req err' Hi e He; at_position; cbn; auto] |]).
  all: (split;
    [solve [intros g Hg Hz;
            first
              [ discriminate Hg
              | injection Hg as <-; apply slice_4_zip in Hz;
                match goal with
                | H : String.eqb (slice_4 _) _ = false |- _ =>
                    rewrite Hz in H; discriminate H
                end
              | split;
                [ eexists; split; reflexivity
                | intros Hc;
                  first [ exfalso; apply Hc; reflexivity
                        | eexists; split;
                          [reflexivity | use_tests; reflexivity] ] ] ]] |]).
  all: (split;
    [solve [intros j e Hj Ho; at_position; try discriminate Ho;
            first [reflexivity | split; [reflexivity | eauto]]] |]).
  all: (split;
    [solve [intros j e Hj Ho; at_position; try discriminate Ho;
            first [ exists 0; do 2 eexists; split; [lia | reflexivity]
                  | exists 1; do 2 eexists; split; [lia | reflexivity] ]]
    |]).
  all: (intros j e Hj Ho; at_position; try discriminate Ho;
        first [ exists 1; do 2 eexists;
                split; [lia | split; reflexivity]
              | exists 2; do 2 eexists;
                split; [lia | split; reflexivity]
              | exists 3; do 2 eexists;
                split; [lia | split; reflexivity] ]).
Qed.

(** What each call of a run carries. *)
Lemma flush_requests (p : Params) (w : W) (e : Event) :
  e ∈ calls (flush aws p w) ->
  match ev_op e with
  | PutObject => ev_req e = s3upload_s3params p
  | ListFunctions => ev_req e = ∅
  | CreateFunction => ev_req e = createFunction_lamparams p
  | UpdateFunctionConfiguration =>
      ev_req e = updateFunctionConfiguration_lamparams p
  | UpdateFunctionCode => ev_req e = updateFunctionCode_lamparams p
  | GetAlias => ev_req e = getAlias_lamparams p
  | CreateAlias | UpdateAlias =>
      exists v, ev_req e = alias_lamparams v p
  end.
Proof.
  run_flush; intros He; at_position; cbn; eauto.
Qed.

(** A run that makes a call has passed the checks of [flush]. *)
Lemma flush_calls_file (p : Params) (w : W) (e : Event) :
  e ∈ calls (flush aws p w) ->
  exists f, file p = Some f /\ slice_4 (path f) = ".zip".
Proof.
  unfold flush. destruct (file p) as [f|]; cbn.
  - destruct (String.eqb (slice_4 (path f)) ".zip") eqn:Hz; cbn.
    + intros _. exists f. split; [reflexivity|]. now apply String.eqb_eq.
    + intros He. apply elem_of_nil in He as [].
  - intros He. apply elem_of_nil in He as [].
Qed.

(** C2: on the update path the configuration update comes first and
    the code update is issued only once it has succeeded, right after
    it; the code update carries [Publish], the configuration update does
    not. *)
Theorem configuration_update_precedes_code_update
    (p : Params) (w : W) (i : nat) (req : JsObject)
    (fs : list FunctionConfiguration) :
  let r := flush aws p w in
  calls r !! i = Some (EvListFunctions req (inr fs)) ->
  scan_functions fs (name p) = true ->
  (exists cres,
     calls r !! (S i)
     = Some (EvUpdateFunctionConfiguration
               (updateFunctionConfiguration_lamparams p) cres) /\
     match cres with
     | inr _ =>
         exists ures,
           calls r !! (S (S i))
           = Some (EvUpdateFunctionCode
                     (updateFunctionCode_lamparams p) ures)
     | inl _ => length (calls r) = S (S i)
     end) /\
  count_op UpdateFunctionConfiguration (calls r) = 1 /\
  count_op UpdateFunctionCode (calls r) <= 1 /\
  count_op CreateFunction (calls r) = 0 /\
  (forall j e, calls r !! j = Some e -> ev_op e = UpdateFunctionCode ->
     j = S (S i) /\
     ev_req e !! "Publish" = Some (publish p) /\
     ev_req e !! "FunctionName" = Some (name p)) /\
  updateFunctionConfiguration_lamparams p !! "Publish" = None.
Proof.
  cbn zeta. intros Hi Hscan.
  revert Hi; run_flush; intros Hi; at_position; try congruence.
  all: (split; [eexists; split; [reflexivity | cbn; eauto] |]).
  all: (split; [reflexivity |]).
  all: (split; [repeat constructor |]).
  all: (split; [reflexivity |]).
  all: (split; [| apply configuration_has_no_Publish]).
  all: intros j e Hj He; at_position; try discriminate He; cbn;
    auto using code_update_Publish, code_update_FunctionName.
Qed.


(** On success [flush] pushes the stored file, and nothing on failure. *)
Lemma flush_pushed (p : Params) (w : W) :
  pushed (flush aws p w)
  = match cb_error (flush aws p w), file p with
    | None, Some f => [f]
    | _, _ => []
    end.
Proof.
  unfold flush, done. destruct (file p) as [f|]; [|reflexivity].
  destruct (negb (String.eqb (slice_4 (path f)) ".zip")); [reflexivity|].
  destruct (chain aws p _) as [[err|u] s]; reflexivity.
Qed.

(** C5: with an alias name the lookup follows the reconciled function;
    not found gives one creation of the alias at the produced version,
    found gives one update to it; on any other error [upsertAlias]
    rejects with that error after the lookup alone, the run makes no
    further call and ends as [done(err)] does: [cb] gets the plugin's
    error with the message of that error (when the message is empty
    [gulpError] throws instead); without an alias name there is no alias
    call. *)
Theorem alias_is_upserted (p : Params) (w : W) :
  let r := flush aws p w in
  (truthy (alias p) = false ->
     forall e, e ∈ calls r -> stage (ev_op e) <> 3) /\
  (truthy (alias p) = true ->
     forall j e v, calls r !! j = Some e -> produced_version e = Some v ->
       exists res,
         calls r !! (S j) = Some (EvGetAlias (getAlias_lamparams p) res)) /\
  (forall i req res, calls r !! i = Some (EvGetAlias req res) ->
     req !! "FunctionName" = Some (name p) /\
     req !! "Name" = Some (alias p) /\
     exists j e v,
       i = S j /\ calls r !! j = Some e /\ produced_version e = Some v /\
       match res with
       | inl err =>
           if not_found err then
             (exists res', calls r !! (S i)
                = Some (EvCreateAlias (alias_lamparams v p) res')) /\
             count_op CreateAlias (calls r) = 1 /\
             count_op UpdateAlias (calls r) = 0
           else
             length (calls r) = S i /\
             count_op CreateAlias (calls r) = 0 /\
             count_op UpdateAlias (calls r) = 0 /\
             cb_error r = Some (gulpError (err_message err))
       | inr _ =>
           (exists res', calls r !! (S i)
              = Some (EvUpdateAlias (alias_lamparams v p) res')) /\
           count_op UpdateAlias (calls r) = 1 /\
           count_op CreateAlias (calls r) = 0
       end) /\
  (forall v, alias_lamparams v p !! "FunctionName" = Some (name p) /\
             alias_lamparams v p !! "FunctionVersion" = Some (JStr v) /\
             alias_lamparams v p !! "Name" = Some (alias p)) /\
  (forall v s err w',
     lambda_getAlias aws (getAlias_lamparams p) (world s) = (inl err, w') ->
     not_found err = false ->
     upsertAlias aws v p s
     = (inl err,
        {| world := w';
           trace := trace s ++ [EvGetAlias (getAlias_lamparams p)
                                  (inl err)] |})) /\
  (forall i req err, calls r !! i = Some (EvGetAlias req (inl err)) ->
     not_found err = false -> err_message err <> "" ->
     pushed r = [] /\
     cb_error r
     = Some (inr {| plugin := "gulp-lambda-deploy";
                    message := err_message err |})).
Proof.
  cbn zeta.
  match goal with
  | |- ?A /\ ?B /\ ?C /\ ?D /\ ?E /\ ?F =>
      enough (A /\ B /\ C) as (HA & HB & HC);
      [ split; [exact HA|]; split; [exact HB|]; split; [exact HC|];
        split; [intros v; apply alias_request|]; split | ]
  end.
  { intros v s err w' Hg Hnf.
    unfold upsertAlias, getAlias, then_, sdk, reject, resolve.
    rewrite Hg. cbn. unfold not_found in Hnf. now rewrite Hnf. }
  { intros i req err Hi Hnf Hm.
    destruct (HC i req (inl err) Hi)
      as (_ & _ & j & e & v & _ & _ & _ & Hbr).
    rewrite Hnf in Hbr. destruct Hbr as (_ & _ & _ & Hcb).
    rewrite flush_pushed, Hcb. split; [reflexivity|].
    now rewrite gulpError_inr. }
  run_flush.
  all: (split; [solve [intros Ha e He; try discriminate Ha; at_position;
                       cbn; discriminate] |]).
  all: (split; [solve [intros Ha j e v Hj Hv; try discriminate Ha;
                       at_position; try discriminate Hv; cbn; eauto] |]).
  all: intros i req res Hi; at_position.
  all: (split; [apply getAlias_request |]).
  all: (split; [apply getAlias_request |]).
  all: do 3 eexists; split; [reflexivity |]; split; [reflexivity |];
    split; [reflexivity |]; use_tests; eauto 6.
Qed.

(** A use of the plugin that reaches [flush]. *)
Lemma run_plugin_Ended (p : Params) (o : option Options)
    (files : list File) (w : W) (r : Flushed W) :
  run_plugin aws (Some p) o files w = Ended r ->
  module_exports (Some p) o = inr p /\
  Forall (fun f => isStream f = false) files /\
  r = flush aws (with_file p (artifact p files)) w.
Proof.
  unfold run_plugin. intros H.
  destruct (module_exports (Some p) o) as [e|q] eqn:Hm; [discriminate|].
  pose proof (module_exports_inr _ _ _ Hm) as [-> _].
  destruct (write_all p files) as [e|q] eqn:Hw; [discriminate|].
  pose proof (write_all_inr _ _ _ Hw) as Hs.
  rewrite write_all_spec in Hw by assumption.
  injection Hw as <-. injection H as <-. auto.
Qed.

(** C4: every creation and every code update carries exactly one form
    of the code: the staging location when [params.s3] is there (and
    then neither name is empty, and no bytes are sent), the bytes of the
    deployed file when it is not (and then no location is sent). *)
Theorem one_code_representation
    (p : Params) (o : option Options) (files : list File) (w : W)
    (r : Flushed W) (i : nat) (e : Event) :
  run_plugin aws (Some p) o files w = Ended r ->
  match file p with Some g => isBuffer g | None => true end = true ->
  calls r !! i = Some e ->
  ev_op e = CreateFunction \/ ev_op e = UpdateFunctionCode ->
  exists code : JsObject,
    code_of e = Some code /\
    if truthy (s3 p) then
      code !! "S3Bucket" = Some (prop (s3 p) "bucket") /\
      truthy (prop (s3 p) "bucket") = true /\
      code !! "S3Key" = Some (prop (s3 p) "key") /\
      truthy (prop (s3 p) "key") = true /\
      code !! "ZipFile" = None
    else
      exists f bytes,
        artifact p files = Some f /\ contents f = Buffer bytes /\
        code !! "ZipFile" = Some (JBuffer bytes) /\
        code !! "S3Bucket" = None /\ code !! "S3Key" = None.
Proof.
  intros Hrun Hpre He Hop.
  apply list_elem_of_lookup_2 in He.
  assert (forall g, file p = Some g -> isBuffer g = true) as Hpre'.
  { intros g Hg. now rewrite Hg in Hpre. }
  clear Hpre. rename Hpre' into Hpre.
  apply run_plugin_Ended in Hrun as (Hm & Hs & ->).
  apply module_exports_inr in Hm as (_ & _ & _ & Hloc & _).
  set (q := with_file p (artifact p files)) in *.
  pose proof (flush_requests q w e He) as Hreq.
  pose proof (flush_calls_file q w e He) as (f & Hf & _).
  change (file q) with (artifact p files) in Hf.
  destruct (artifact_buffer p files f Hs Hpre Hf) as [bytes Hb].
  assert (exists code, code_of e = Some code /\
            if truthy (s3 q)
            then code !! "S3Bucket" = Some (prop (s3 q) "bucket") /\
                 code !! "S3Key" = Some (prop (s3 q) "key") /\
                 code !! "ZipFile" = None
            else code !! "S3Bucket" = None /\ code !! "S3Key" = None /\
                 code !! "ZipFile"
                 = Some (match file q with
                         | Some f => contents_val (contents f)
                         | None => JUndefined
                         end)) as (code & Hc & Hcode).
  { destruct Hop as [Hop|Hop]; rewrite Hop in Hreq;
      destruct e; try discriminate Hop; cbn in Hreq; subst req; cbn.
    - rewrite creation_Code. eexists; split; [reflexivity|].
      apply (add_code_spec q); apply lookup_empty.
    - eexists; split; [reflexivity|]. apply (code_update_code q). }
  exists code. split; [exact Hc|].
  change (s3 q) with (s3 p) in Hcode.
  change (file q) with (artifact p files) in Hcode.
  destruct (truthy (s3 p)).
  - destruct Hcode as (? & ? & ?). destruct Hloc as [? ?]; auto.
  - destruct Hcode as (? & ? & Hz). exists f, bytes.
    rewrite Hf, Hb in Hz. auto.
Qed.

(** C6: a spec with an alias but no publish, without a name, without a
    role, or with a staging block that lacks its bucket or its key makes
    [module.exports] throw; nothing is written, flushed or called. *)
Theorem invalid_spec_is_rejected
    (p : Params) (o : option Options) (files : list File) (w : W) :
  truthy (alias p) = true /\ truthy (publish p) = false \/
  truthy (name p) = false \/
  truthy (role p) = false \/
  truthy (s3 p) = true /\
    (truthy (prop (s3 p) "bucket") = false \/
     truthy (prop (s3 p) "key") = false) ->
  exists e : PluginError,
    module_exports (Some p) o = inl (inr e) /\
    run_plugin aws (Some p) o files w = Threw (inr e) /\
    remote_calls (run_plugin aws (Some p) o files w) = [].
Proof.
  intros Hbad. unfold run_plugin.
  destruct (module_exports (Some p) o) as [x|q] eqn:Hm.
  - destruct (module_exports_throws _ _ _ Hm) as [e ->]. exists e. auto.
  - exfalso.
    apply module_exports_inr in Hm as (_ & Hn & Hr & Hloc & Hal).
    destruct Hbad as [[Ha Hp] | [Hn' | [Hr' | [Hs Hbk]]]].
    + specialize (Hal Ha). congruence.
    + congruence.
    + congruence.
    + destruct (Hloc Hs) as [Hb Hk]. destruct Hbk; congruence.
Qed.

(** C7: without a file to deploy, or with one whose path does not end in
    [.zip], the run fails with the matching error and makes no remote
    call. *)
Theorem bad_artifact_is_rejected
    (p : Params) (o : option Options) (files : list File) (w : W) :
  artifact p files = None \/
  (exists f, artifact p files = Some f /\ ~ ends_with_zip (path f)) ->
  let out := run_plugin aws (Some p) o files w in
  remote_calls out = [] /\
  match out with
  | Threw _ => True
  | Ended r =>
      pushed r = [] /\ after r = w /\
      cb_error r
      = Some (gulpError match artifact p files with
                        | None => "No code provided"
                        | Some _ => "Given file is not a zip"
                        end)
  end.
Proof.
  intros Hbad. cbn zeta.
  destruct (run_plugin aws (Some p) o files w) as [e|r] eqn:Hrun;
    [split; reflexivity|].
  apply run_plugin_Ended in Hrun as (_ & _ & ->).
  unfold flush, remote_calls. cbn [file with_file].
  destruct Hbad as [Hnone | (f & Hf & Hzip)].
  - rewrite Hnone. cbn. auto.
  - rewrite Hf.
    destruct (String.eqb (slice_4 (path f)) ".zip") eqn:Hz.
    + exfalso. apply Hzip, slice_4_zip. now apply String.eqb_eq.
    + cbn. auto.
Qed.

(** C8: the configuration update of a run carries the name, the role,
    the handler and the runtime (their defaults when they are not
    given), each of memory, description and timeout exactly when it is
    there, the VPC settings exactly when both lists are there, and no
    other field. *)
Theorem configuration_update_fields (p : Params) (w : W) :
  let req := updateFunctionConfiguration_lamparams p in
  (forall e, e ∈ calls (flush aws p w) ->
     ev_op e = UpdateFunctionConfiguration -> ev_req e = req) /\
  req !! "FunctionName" = Some (name p) /\
  req !! "Role" = Some (role p) /\
  req !! "Handler"
    = Some (if truthy (handler p) then handler p
            else JStr "index.handler") /\
  req !! "Runtime"
    = Some (if truthy (runtime p) then runtime p else JStr "nodejs4.3") /\
  req !! "MemorySize"
    = (if truthy (memory p) then Some (memory p) else None) /\
  req !! "Description"
    = (if truthy (description p) then Some (description p) else None) /\
  req !! "Timeout"
    = (if truthy (timeout p) then Some (timeout p) else None) /\
  req !! "VpcConfig"
    = (if truthy (subnets p) && truthy (securityGroups p)
       then Some (vpc_config (subnets p) (securityGroups p))
       else None) /\
  (forall k, k ∉ ["FunctionName"; "Role"; "Handler"; "Runtime";
                  "MemorySize"; "Description"; "Timeout"; "VpcConfig"] ->
     req !! k = None).
Proof.
  cbn zeta. split.
  { intros e He Hop. pose proof (flush_requests p w e He) as H.
    now rewrite Hop in H. }
  pose proof (configuration_request p) as H. cbn zeta in H.
  destruct H as (H1 & H2 & H3 & H4 & H5 & H6 & H7 & H8).
  repeat (split; [assumption|]).
  intros k Hk. rewrite !not_elem_of_cons in Hk.
  destruct Hk as (K1 & K2 & K3 & K4 & K5 & K6 & K7 & K8 & _).
  rewrite configuration_lookup.
  - rewrite !lookup_insert_ne by auto. apply lookup_empty.
  - unfold optional_names. rewrite !not_elem_of_cons.
    repeat (split; [assumption|]). apply not_elem_of_nil.
Qed.

(** C9: the configuration update and the creation of a run carry the
    VPC settings exactly when both lists are there; a list and a string
    that is not empty are there; a string is sent as a list of one; the
    checks of [module.exports] do not look at either list. *)
Theorem vpc_settings_need_both_lists (p : Params) (w : W) :
  (forall e, e ∈ calls (flush aws p w) ->
     ev_op e = UpdateFunctionConfiguration \/ ev_op e = CreateFunction ->
     ev_req e !! "VpcConfig"
     = if truthy (subnets p) && truthy (securityGroups p)
       then Some (vpc_config (subnets p) (securityGroups p))
       else None) /\
  (forall sn sg,
     prop (vpc_config sn sg) "SubnetIds" = as_list sn /\
     prop (vpc_config sn sg) "SecurityGroupIds" = as_list sg) /\
  (forall s, as_list (JStr s) = JArr [JStr s]) /\
  (forall xs, as_list (JArr xs) = JArr xs) /\
  (forall xs, truthy (JArr xs) = true) /\
  (forall s, s <> "" -> truthy (JStr s) = true) /\
  truthy JUndefined = false /\
  (forall o sn sg,
     module_exports (Some (set_vpc p sn sg)) o
     = match module_exports (Some p) o with
       | inl e => inl e
       | inr q => inr (set_vpc q sn sg)
       end).
Proof.
  split.
  { intros e He Hop. pose proof (flush_requests p w e He) as H.
    destruct Hop as [Hop|Hop]; rewrite Hop in H; rewrite H.
    - apply configuration_request.
    - apply creation_request. }
  split.
  { intros sn sg. unfold vpc_config, prop. split; by simplify_map_eq. }
  repeat (split; [reflexivity|]).
  split.
  { intros s Hs. cbn. destruct (String.eqb s "") eqn:E; [|reflexivity].
    apply String.eqb_eq in E. contradiction. }
  split; [reflexivity|].
  intros o sn sg. unfold module_exports.
  cbn [name role s3 alias publish set_vpc].
  repeat match goal with
    | |- context [match ?x with Some _ => _ | None => _ end] =>
        is_var x; destruct x
    | |- context [if ?b then _ else _] => destruct b
    end; reflexivity.
Qed.

(** C10: of the files written, the last that is not null is the one in
    [params.file] at the end: each file that is neither null nor a stream
    replaces the stored one.  When no stream was written the run is the
    run of that file alone, and on success it is the only file pushed;
    when a stream was written the plugin throws and deploys nothing. *)
Theorem last_written_file_is_deployed
    (p : Params) (o : option Options) (files : list File) (w : W)
    (f : File) :
  last (filter (fun g => isNull g = false) files) = Some f ->
  (forall q g, isNull g = false -> isStream g = false ->
     transform q g = inr (set_file q g) /\ file (set_file q g) = Some g) /\
  (forall q g, isNull g = true -> transform q g = inr q) /\
  if forallb (fun g => negb (isStream g)) files then
    write_all p files = inr (set_file p f) /\
    run_plugin aws (Some p) o files w = run_plugin aws (Some p) o [f] w /\
    (forall r, run_plugin aws (Some p) o files w = Ended r ->
       r = flush aws (set_file p f) w /\
       (cb_error r = None -> pushed r = [f]))
  else
    exists e : PluginError,
      run_plugin aws (Some p) o files w = Threw (inr e).
Proof.
  intros Hlast.
  split.
  { intros q g Hn Hst. unfold transform. now rewrite Hn, Hst. }
  split.
  { intros q g Hn. unfold transform. now rewrite Hn. }
  destruct (forallb (fun g => negb (isStream g)) files) eqn:Hs.
  - apply no_stream in Hs.
    assert (artifact p files = Some f) as Ha.
    { unfold artifact. now rewrite Hlast. }
    assert (isNull f = false /\ isStream f = false) as [Hfn Hfs].
    { apply last_Some_elem_of in Hlast.
      apply list_elem_of_filter in Hlast as [Hn Hin].
      rewrite Forall_forall in Hs. auto. }
    assert (write_all p files = inr (set_file p f)) as Hw.
    { rewrite write_all_spec by assumption. now rewrite Ha. }
    split; [exact Hw|].
    split.
    { unfold run_plugin.
      destruct (module_exports (Some p) o) as [e|q] eqn:Hm; [reflexivity|].
      apply module_exports_inr in Hm as [-> _].
      rewrite Hw. cbn [write_all]. unfold transform.
      now rewrite Hfn, Hfs. }
    intros r Hr. apply run_plugin_Ended in Hr as (_ & _ & ->).
    rewrite Ha. change (with_file p (Some f)) with (set_file p f).
    split; [reflexivity|].
    intros Hok. rewrite flush_pushed, Hok. reflexivity.
  - apply some_stream in Hs. unfold run_plugin.
    destruct (module_exports (Some p) o) as [x|q] eqn:Hm.
    + destruct (module_exports_throws _ _ _ Hm) as [e ->]. eauto.
    + rewrite write_all_stream by assumption.
      rewrite gulpError_inr by discriminate. eauto.
Qed.

End Orchestration.

(* ===================================================================== *)
(** ** The plugin on the simulated platform *)
(* ===================================================================== *)

(** [{name:"f", role:"r", publish:false}], no function yet: one creation
    with [Publish: false], no alias call. *)
Example scenario_create :
  ops_of (deploy f_r [package_zip] empty_account)
  = [(ListFunctions, true); (CreateFunction, true)] /\
  (forall e, remote_calls (deploy f_r [package_zip] empty_account) !! 1
             = Some e ->
     ev_req e !! "Publish" = Some (JBool false)).
Proof.
  split; [vm_compute; reflexivity|].
  intros e He. vm_compute in He. injection He as <-. vm_compute. reflexivity.
Qed.

(** [{name:"f", role:"r", alias:"live", publish:true}], the function is
    there, the alias is not: configuration, code (version 3), lookup (not
    found), creation of the alias at version 3. *)
Example scenario_update_and_alias :
  ops_of (deploy f_r_live [package_zip] account_with_f)
  = [(ListFunctions, true); (UpdateFunctionConfiguration, true);
     (UpdateFunctionCode, true); (GetAlias, false); (CreateAlias, true)] /\
  (forall e, remote_calls (deploy f_r_live [package_zip] account_with_f) !! 4
             = Some e ->
     ev_req e !! "FunctionVersion" = Some (JStr "3")).
Proof.
  split; [vm_compute; reflexivity|].
  intros e He. vm_compute in He. injection He as <-. vm_compute. reflexivity.
Qed.

(** Staging [{bucket:"b", key:"k"}], no function yet: the upload comes
    before the lookup and the creation, whose code is the location. *)
Example scenario_staged :
  ops_of (deploy f_r_staged [package_zip] empty_account)
  = [(PutObject, true); (ListFunctions, true); (CreateFunction, true)] /\
  (forall e, remote_calls (deploy f_r_staged [package_zip] empty_account) !! 2
             = Some e ->
     exists code,
       code_of e = Some code /\
       code !! "S3Bucket" = Some (JStr "b") /\
       code !! "S3Key" = Some (JStr "k") /\
       code !! "ZipFile" = None).
Proof.
  split; [vm_compute; reflexivity|].
  intros e He. vm_compute in He. injection He as <-.
  eexists. split; [vm_compute; reflexivity|].
  repeat split; vm_compute; reflexivity.
Qed.

(** A failed lookup after a successful upload: nothing follows. *)
Example scenario_lookup_fails :
  ops_of (deploy f_r_staged [package_zip]
            (account_down [ListFunctions] empty_account))
  = [(PutObject, true); (ListFunctions, false)].
Proof. vm_compute; reflexivity. Qed.

(** A file that is not an archive. *)
Example scenario_not_a_zip :
  exists r, deploy f_r [readme_md] empty_account = Ended r /\
            cb_error r = Some (gulpError "Given file is not a zip") /\
            calls r = [].
Proof. eexists. split; [vm_compute; reflexivity|]. split; reflexivity. Qed.

(** A stream makes [transform] throw. *)
Example scenario_stream :
  deploy f_r [package_zip; {| path := "s.zip"; contents := Stream |}]
    empty_account
  = Threw (gulpError "Stream content is not supported").
Proof. vm_compute; reflexivity. Qed.

(* ===================================================================== *)
(** ** Instances of the theorems *)
(* ===================================================================== *)

(** The update path on an account that holds [f]. *)
Lemma configuration_update_precedes_code_update_witness :
  let p := with_file f_r_live (Some package_zip) in
  let r := flush cloud p account_with_f in
  calls r !! 0
    = Some (EvListFunctions ∅ (inr (cloud_functions account_with_f))) /\
  scan_functions (cloud_functions account_with_f) (name p) = true /\
  count_op UpdateFunctionConfiguration (calls r) = 1.
Proof.
  cbn zeta.
  assert (calls (flush cloud (with_file f_r_live (Some package_zip))
                   account_with_f) !! 0
          = Some (EvListFunctions ∅ (inr (cloud_functions account_with_f))))
    as H1 by (vm_compute; reflexivity).
  assert (scan_functions (cloud_functions account_with_f)
            (name (with_file f_r_live (Some package_zip))) = true)
    as H2 by (vm_compute; reflexivity).
  split; [exact H1|]. split; [exact H2|].
  exact (proj1 (proj2 (configuration_update_precedes_code_update
                         cloud _ _ 0 ∅ _ H1 H2))).
Defined.


(** The creation of a staged deployment carries the location only. *)
Lemma one_code_representation_witness :
  let out := deploy f_r_staged [package_zip] empty_account in
  exists r e code,
    out = Ended r /\ calls r !! 2 = Some e /\ ev_op e = CreateFunction /\
    code_of e = Some code /\ code !! "ZipFile" = None.
Proof.
  cbn zeta.
  set (r := flush cloud (with_file f_r_staged (Some package_zip))
              empty_account).
  set (e := EvCreateFunction
              (createFunction_lamparams
                 (with_file f_r_staged (Some package_zip)))
              (inr {| FunctionName := "f"; Version := "$LATEST" |})).
  assert (deploy f_r_staged [package_zip] empty_account = Ended r)
    as H1 by (vm_compute; reflexivity).
  assert (match file f_r_staged with
          | Some g => isBuffer g
          | None => true
          end = true) as H2 by reflexivity.
  assert (calls r !! 2 = Some e) as H3 by (vm_compute; reflexivity).
  assert (ev_op e = CreateFunction \/ ev_op e = UpdateFunctionCode)
    as H4 by (left; reflexivity).
  destruct (one_code_representation cloud f_r_staged (Some aws_options)
              [package_zip] empty_account r 2 e H1 H2 H3 H4)
    as (code & Hc & Hcode).
  exists r, e, code.
  split; [exact H1|]. split; [exact H3|]. split; [reflexivity|].
  split; [exact Hc|]. apply Hcode.
Defined.

(** A spec without a name. *)
Lemma invalid_spec_is_rejected_witness :
  truthy (name no_params) = false /\
  exists e, deploy no_params [package_zip] empty_account = Threw (inr e).
Proof.
  assert (truthy (name no_params) = false) as H by reflexivity.
  split; [exact H|].
  destruct (invalid_spec_is_rejected cloud no_params (Some aws_options)
              [package_zip] empty_account (or_intror (or_introl H)))
    as (e & _ & He & _).
  exists e. exact He.
Defined.

(** Only a null file was written. *)
Lemma bad_artifact_is_rejected_witness :
  artifact f_r [empty_dir] = None /\
  remote_calls (deploy f_r [empty_dir] empty_account) = [].
Proof.
  assert (artifact f_r [empty_dir] = None) as H by reflexivity.
  split; [exact H|].
  exact (proj1 (bad_artifact_is_rejected cloud f_r (Some aws_options)
                  [empty_dir] empty_account (or_introl H))).
Defined.

(** Two archives and two null files. *)
Lemma last_written_file_is_deployed_witness :
  let files := [old_zip; empty_dir; package_zip; empty_dir] in
  last (filter (fun g => isNull g = false) files) = Some package_zip /\
  deploy f_r files empty_account = deploy f_r [package_zip] empty_account.
Proof.
  cbn zeta.
  assert (last (filter (fun g => isNull g = false)
                  [old_zip; empty_dir; package_zip; empty_dir])
          = Some package_zip) as H by (vm_compute; reflexivity).
  split; [exact H|].
  exact (proj1 (proj2 (proj2 (proj2
           (last_written_file_is_deployed cloud f_r (Some aws_options)
              _ empty_account package_zip H))))).
Defined.

(* ===================================================================== *)
(** ** Further properties of the plugin *)
(* ===================================================================== *)

(** X1: the loop of [hasLambdaFunction] answers [true] exactly when
    [targetFunction] is a string and some listed function has exactly
    that name. *)
Theorem scan_functions_spec
    (fs : list FunctionConfiguration) (target : JsVal) :
  scan_functions fs target = true <->
  exists fc, fc ∈ fs /\ target = JStr (FunctionName fc).
Proof.
  induction fs as [|f fs IH]; cbn.
  - split; [discriminate|]. intros (fc & Hin & _).
    apply elem_of_nil in Hin as [].
  - destruct (strict_eq_str (FunctionName f) target) eqn:Heq.
    + split; [intros _|reflexivity].
      exists f. split; [apply list_elem_of_here|].
      unfold strict_eq_str in Heq. destruct target; try discriminate Heq.
      apply String.eqb_eq in Heq. now subst.
    + rewrite IH. split.
      * intros (fc & Hin & Ht). exists fc.
        split; [now apply list_elem_of_further | exact Ht].
      * intros (fc & Hin & Ht). apply elem_of_cons in Hin as [-> | Hin].
        -- subst target. cbn in Heq. rewrite String.eqb_refl in Heq.
           discriminate Heq.
        -- eauto.
Qed.

(** X2: [module.exports] returns the stream exactly when there are
    parameters and options, the name, the role, the region and the
    profile are there, a staging block has its bucket and its key, and an
    alias comes with publish; it then keeps [params] as given. *)
Theorem module_exports_accepts_iff
    (po : option Params) (oo : option Options) (q : Params) :
  module_exports po oo = inr q <->
  exists p o,
    po = Some p /\ oo = Some o /\ q = p /\
    truthy (name p) = true /\ truthy (role p) = true /\
    truthy (region o) = true /\ truthy (profile o) = true /\
    (truthy (s3 p) = true ->
       truthy (prop (s3 p) "bucket") = true /\
       truthy (prop (s3 p) "key") = true) /\
    (truthy (alias p) = true -> truthy (publish p) = true).
Proof.
  split.
  - unfold module_exports. intros H.
    destruct po as [p|]; [|discriminate H].
    destruct (truthy (name p)) eqn:Hn; [|discriminate H].
    destruct (truthy (role p)) eqn:Hr; [|discriminate H].
    destruct oo as [o|]; [|discriminate H].
    destruct (truthy (region o)) eqn:Hg; [|discriminate H].
    destruct (truthy (profile o)) eqn:Hp; [|discriminate H].
    cbn in H. exists p, o.
    destruct (truthy (s3 p)); cbn in H;
      [destruct (truthy (prop (s3 p) "bucket")); [|discriminate H];
       destruct (truthy (prop (s3 p) "key")); [|discriminate H]; cbn in H |];
      (destruct (truthy (alias p)); cbn in H;
       [destruct (truthy (publish p)); [|discriminate H] |]);
      injection H as <-; repeat split; intros; congruence.
  - intros (p & o & -> & -> & -> & Hn & Hr & Hg & Hp & Hs & Ha).
    unfold module_exports. rewrite Hn, Hr, Hg, Hp. cbn.
    assert ((if truthy (alias p) && negb (truthy (publish p))
             then inl (gulpError
                         "An alias was provided but 'publish' was 'false'.")
             else inr p)
            = (inr p : (JsError + PluginError) + Params)) as Hal.
    { destruct (truthy (alias p)); [|reflexivity].
      now rewrite Ha. }
    rewrite Hal.
    destruct (truthy (s3 p)); [|reflexivity].
    destruct Hs as [Hb Hk]; [reflexivity|]. now rewrite Hb, Hk.
Qed.

Section More.
Context {W : Type} (aws : Platform W).

(** The first call of the promise chain. *)
Lemma chain_first_call (p : Params) (w : W) :
  exists e,
    trace (snd (chain aws p {| world := w; trace := [] |})) !! 0 = Some e /\
    ev_op e = if truthy (s3 p) then PutObject else ListFunctions.
Proof.
  unfold chain, upsertAlias, getAlias, createAlias, updateAlias,
    createFunction, updateFunctionCode, updateFunctionConfiguration,
    hasLambdaFunction, s3upload, then_, sdk, resolve, reject.
  repeat (cbn; step_run); cbn; eauto.
Qed.

(** The upload, when there is one, is the first call. *)
Lemma upload_is_first (p : Params) (w : W) (i : nat) (e : Event) :
  calls (flush aws p w) !! i = Some e -> ev_op e = PutObject ->
  i = 0 /\ truthy (s3 p) = true.
Proof.
  intros He Hop. revert He.
  run_flush; intros He; at_position; try discriminate Hop; auto.
Qed.

(** X3: the upload of a run is its first call and is made only when
    [params.s3] is there; it carries the bucket and the key of
    [params.s3], both there, the bytes of the deployed file as [Body],
    and no other field.  ([params.file], when the caller set it, is taken
    to hold a Buffer, as every file stored by [transform] does.) *)
Theorem staged_upload_carries_artifact
    (p : Params) (o : option Options) (files : list File) (w : W)
    (r : Flushed W) (i : nat) (e : Event) :
  run_plugin aws (Some p) o files w = Ended r ->
  match file p with Some g => isBuffer g | None => true end = true ->
  calls r !! i = Some e ->
  ev_op e = PutObject ->
  i = 0 /\ truthy (s3 p) = true /\
  exists f bytes,
    artifact p files = Some f /\ contents f = Buffer bytes /\
    ev_req e !! "Body" = Some (JBuffer bytes) /\
    ev_req e !! "Bucket" = Some (prop (s3 p) "bucket") /\
    truthy (prop (s3 p) "bucket") = true /\
    ev_req e !! "Key" = Some (prop (s3 p) "key") /\
    truthy (prop (s3 p) "key") = true /\
    (forall k, k ∉ ["Bucket"; "Key"; "Body"] -> ev_req e !! k = None).
Proof.
  intros Hrun Hpre He Hop.
  assert (i = 0 /\ truthy (s3 p) = true) as [-> Hs3].
  { apply run_plugin_Ended in Hrun as (_ & _ & ->).
    exact (upload_is_first _ w i e He Hop). }
  apply list_elem_of_lookup_2 in He.
  assert (forall g, file p = Some g -> isBuffer g = true) as Hpre'.
  { intros g Hg. now rewrite Hg in Hpre. }
  apply run_plugin_Ended in Hrun as (Hm & Hs & ->).
  apply module_exports_inr in Hm as (_ & _ & _ & Hloc & _).
  destruct (Hloc Hs3) as [Hb Hk].
  set (q := with_file p (artifact p files)) in *.
  pose proof (flush_requests aws q w e He) as Hreq.
  rewrite Hop in Hreq.
  pose proof (flush_calls_file aws q w e He) as (f & Hf & _).
  change (file q) with (artifact p files) in Hf.
  destruct (artifact_buffer p files f Hs Hpre' Hf) as [bytes Hbytes].
  pose proof (s3upload_request q) as (R1 & R2 & R3 & R4).
  change (s3 q) with (s3 p) in *.
  change (file q) with (artifact p files) in R3.
  rewrite Hf, Hbytes in R3. cbn in R3.
  split; [reflexivity|]. split; [exact Hs3|].
  exists f, bytes. rewrite Hreq. auto 10.
Qed.

(** X4: once the parameters are accepted, a stream among the written
    files makes the plugin throw, whatever else was written; nothing is
    flushed. *)
Theorem stream_is_refused
    (p : Params) (o : option Options) (files : list File) (w : W) :
  module_exports (Some p) o = inr p ->
  existsb isStream files = true ->
  run_plugin aws (Some p) o files w
  = Threw (gulpError "Stream content is not supported").
Proof.
  intros Hm Hs. unfold run_plugin. rewrite Hm.
  now rewrite write_all_stream by (apply stream_among, Hs).
Qed.

(** X5: a run makes each remote operation at most once, six calls at
    most; it never both creates and updates the function, nor both
    creates and updates the alias. *)
Theorem no_call_is_repeated (p : Params) (w : W) :
  let r := flush aws p w in
  (forall op, count_op op (calls r) <= 1) /\
  length (calls r) <= 6 /\
  count_op CreateFunction (calls r)
    + count_op UpdateFunctionConfiguration (calls r) <= 1 /\
  count_op CreateFunction (calls r)
    + count_op UpdateFunctionCode (calls r) <= 1 /\
  count_op CreateAlias (calls r) + count_op UpdateAlias (calls r) <= 1.
Proof.
  cbn zeta. run_flush.
  all: split; [intros op; destruct op; cbn; repeat constructor|].
  all: repeat split; cbn; repeat constructor.
Qed.

(** X6: the listing is asked with an empty request; every other Lambda
    call of a run names [params.name] as its function, and every alias
    call names [params.alias]. *)
Theorem every_call_targets_the_function (p : Params) (w : W) :
  Forall
    (fun e =>
       match ev_op e with
       | PutObject => True
       | ListFunctions => ev_req e = ∅
       | CreateFunction | UpdateFunctionConfiguration
       | UpdateFunctionCode =>
           ev_req e !! "FunctionName" = Some (name p)
       | GetAlias | CreateAlias | UpdateAlias =>
           ev_req e !! "FunctionName" = Some (name p) /\
           ev_req e !! "Name" = Some (alias p)
       end)
    (calls (flush aws p w)).
Proof.
  apply Forall_forall. intros e He.
  pose proof (flush_requests aws p w e He) as H.
  destruct (ev_op e); try exact I; try exact H; try rewrite H.
  - apply creation_request.
  - apply configuration_request.
  - apply code_update_FunctionName.
  - apply getAlias_request.
  - destruct H as [v ->]. split; apply alias_request.
  - destruct H as [v ->]. split; apply alias_request.
Qed.

(** X7: [flush] calls the platform exactly when [params.file] is there
    and its path ends in [.zip]; the first call is then the upload when
    [params.s3] is there, the listing when it is not. *)
Theorem flush_reaches_platform_iff (p : Params) (w : W) :
  (calls (flush aws p w) <> [] <->
   exists f, file p = Some f /\ ends_with_zip (path f)) /\
  (calls (flush aws p w) <> [] ->
   exists e, calls (flush aws p w) !! 0 = Some e /\
             ev_op e = if truthy (s3 p) then PutObject else ListFunctions).
Proof.
  assert (forall f, file p = Some f -> ends_with_zip (path f) ->
            exists e, calls (flush aws p w) !! 0 = Some e /\
              ev_op e = if truthy (s3 p) then PutObject else ListFunctions)
    as Hfirst.
  { intros f Hf Hz. apply slice_4_zip in Hz.
    unfold flush. rewrite Hf, Hz. cbn.
    destruct (chain_first_call p w) as (e & He & Hop).
    destruct (chain aws p _) as [[err|u] s]; cbn in *; eauto. }
  assert (calls (flush aws p w) <> [] ->
          exists f, file p = Some f /\ ends_with_zip (path f)) as Hfile.
  { intros Hne. destruct (calls (flush aws p w)) as [|e l] eqn:Hc;
      [contradiction|].
    destruct (flush_calls_file aws p w e) as (f & Hf & Hz).
    { rewrite Hc. apply list_elem_of_here. }
    exists f. split; [exact Hf | now apply slice_4_zip]. }
  split; [split|].
  - exact Hfile.
  - intros (f & Hf & Hz). destruct (Hfirst f Hf Hz) as (e & He & _).
    intros Hnil. rewrite Hnil in He. discriminate He.
  - intros Hne. destruct (Hfile Hne) as (f & Hf & Hz). eauto.
Qed.

(** X8: writing files changes nothing of [params] but [params.file],
    which ends as the last file that is not null (as it was, when there
    is none). *)
Theorem writing_changes_only_the_file
    (p q : Params) (files : list File) :
  write_all p files = inr q ->
  file q = artifact p files /\
  name q = name p /\ role q = role p /\ handler q = handler p /\
  runtime q = runtime p /\ memory q = memory p /\
  description q = description p /\ timeout q = timeout p /\
  subnets q = subnets p /\ securityGroups q = securityGroups p /\
  s3 q = s3 p /\ publish q = publish p /\ alias q = alias p.
Proof.
  intros Hw. pose proof (write_all_inr _ _ _ Hw) as Hs.
  rewrite write_all_spec in Hw by assumption.
  injection Hw as <-. repeat split.
Qed.

(** X9: the code update of a run carries the name, the publish flag and
    the code, and nothing of the configuration: no other field. *)
Theorem code_update_sends_only_code (p : Params) (w : W) :
  Forall
    (fun e =>
       ev_op e = UpdateFunctionCode ->
       ev_req e !! "FunctionName" = Some (name p) /\
       ev_req e !! "Publish" = Some (publish p) /\
       forall k,
         k ∉ ["FunctionName"; "Publish"; "S3Bucket"; "S3Key"; "ZipFile"] ->
         ev_req e !! k = None)
    (calls (flush aws p w)).
Proof.
  apply Forall_forall. intros e He Hop.
  pose proof (flush_requests aws p w e He) as H.
  rewrite Hop in H. rewrite H.
  split; [apply code_update_FunctionName|].
  split; [apply code_update_Publish|].
  apply code_update_other.
Qed.

(** X10: the creation of a run has no field beyond the ten the source
    sets, and its [Code] object none beyond the location or the bytes. *)
Theorem creation_sends_no_other_field (p : Params) (w : W) :
  Forall
    (fun e =>
       ev_op e = CreateFunction ->
       (forall k,
          k ∉ ["Code"; "FunctionName"; "Handler"; "Runtime"; "Role";
               "Publish"; "MemorySize"; "Description"; "Timeout";
               "VpcConfig"] ->
          ev_req e !! k = None) /\
       exists code,
         ev_req e !! "Code" = Some (JObj code) /\
         forall k, k ∉ ["S3Bucket"; "S3Key"; "ZipFile"] ->
                   code !! k = None)
    (calls (flush aws p w)).
Proof.
  apply Forall_forall. intros e He Hop.
  pose proof (flush_requests aws p w e He) as H.
  rewrite Hop in H. rewrite H.
  split; [apply creation_other|].
  exists (add_code p ∅). split; [apply creation_Code|].
  apply creation_code_other.
Qed.

(** X11: a run reports no error exactly when [params.file] is there with
    a path in [.zip] and no call failed (the alias lookup's not-found
    apart); it pushes the file then, and nothing otherwise. *)
Theorem run_succeeds_iff (p : Params) (w : W) :
  let r := flush aws p w in
  (cb_error r = None <->
   (exists f, file p = Some f /\ ends_with_zip (path f)) /\
   Forall (fun e => fatal e = false) (calls r)) /\
  pushed r = match cb_error r, file p with
             | None, Some f => [f]
             | _, _ => []
             end.
Proof.
  cbn zeta. split; [|apply flush_pushed].
  unfold flush.
  destruct (file p) as [f|] eqn:Hf.
  2: { cbn. split; [discriminate|]. intros [(g & Hg & _) _]. discriminate Hg. }
  destruct (String.eqb (slice_4 (path f)) ".zip") eqn:Hz; cbn [negb].
  2: { cbn. split; [discriminate|]. intros [(g & Hg & Hzip) _].
       injection Hg as <-. apply slice_4_zip in Hzip.
       rewrite Hzip in Hz. discriminate Hz. }
  assert (exists g, Some f = Some g /\ ends_with_zip (path g)) as Hok.
  { exists f. split; [reflexivity|].
    apply slice_4_zip. now apply String.eqb_eq. }
  clear Hz Hf.
  unfold done, chain, upsertAlias, getAlias, createAlias, updateAlias,
    createFunction, updateFunctionCode, updateFunctionConfiguration,
    hasLambdaFunction, s3upload, then_, sdk, resolve, reject.
  repeat (cbn; step_run); cbn.
  all: split;
    [ intros Hc;
      first [ discriminate Hc
            | split; [exact Hok|];
              repeat constructor; use_tests; reflexivity ]
    | intros [_ Hall];
      first [ reflexivity
            | exfalso;
              repeat match goal with
                | H : Forall _ (_ :: _) |- _ =>
                    apply Forall_cons in H; destruct H as [? H]
                end;
              use_tests; discriminate ] ].
Qed.

(** X12: in a run whose parameters name an alias, every creation and
    every code update asks for a published version. *)
Theorem aliased_run_publishes
    (p : Params) (o : option Options) (files : list File) (w : W)
    (r : Flushed W) :
  run_plugin aws (Some p) o files w = Ended r ->
  truthy (alias p) = true ->
  Forall
    (fun e =>
       ev_op e = CreateFunction \/ ev_op e = UpdateFunctionCode ->
       ev_req e !! "Publish" = Some (publish p) /\
       truthy (publish p) = true)
    (calls r).
Proof.
  intros Hrun Ha.
  apply run_plugin_Ended in Hrun as (Hm & _ & ->).
  apply module_exports_inr in Hm as (_ & _ & _ & _ & Hpub).
  specialize (Hpub Ha).
  set (q := with_file p (artifact p files)).
  apply Forall_forall. intros e He Hop.
  pose proof (flush_requests aws q w e He) as H.
  split; [|exact Hpub].
  destruct Hop as [Hop|Hop]; rewrite Hop in H; rewrite H.
  - apply (creation_request q).
  - apply (code_update_Publish q).
Qed.

(** X13: a creation carries what the two updates carry between them:
    the same configuration fields as the configuration update, the same
    name, publish flag and code as the code update. *)
Theorem creation_matches_updates (p : Params) :
  (forall k,
     k ∈ ["FunctionName"; "Role"; "Handler"; "Runtime"; "MemorySize";
          "Description"; "Timeout"; "VpcConfig"] ->
     createFunction_lamparams p !! k
     = updateFunctionConfiguration_lamparams p !! k) /\
  (forall k,
     k ∈ ["FunctionName"; "Publish"] ->
     createFunction_lamparams p !! k = updateFunctionCode_lamparams p !! k) /\
  (forall code,
     createFunction_lamparams p !! "Code" = Some (JObj code) ->
     forall k, k ∈ ["S3Bucket"; "S3Key"; "ZipFile"] ->
       code !! k = updateFunctionCode_lamparams p !! k).
Proof.
  pose proof (creation_request p) as C. cbn zeta in C.
  destruct C as (C0 & C1 & C2 & C3 & C4 & C5 & C6 & C7 & C8 & C9).
  pose proof (configuration_request p) as U. cbn zeta in U.
  destruct U as (U1 & U2 & U3 & U4 & U5 & U6 & U7 & U8).
  split; [|split].
  - intros k Hk.
    repeat (apply elem_of_cons in Hk as [-> | Hk]; [congruence|]).
    apply elem_of_nil in Hk as [].
  - intros k Hk.
    apply elem_of_cons in Hk as [-> | Hk];
      [now rewrite C1, code_update_FunctionName|].
    apply elem_of_cons in Hk as [-> | Hk];
      [now rewrite C5, code_update_Publish|].
    apply elem_of_nil in Hk as [].
  - intros code Hcode k Hk. rewrite C0 in Hcode. injection Hcode as <-.
    pose proof (add_code_spec p ∅ (lookup_empty _) (lookup_empty _)
                  (lookup_empty _)) as A.
    pose proof (code_update_code p) as B. cbn zeta in B.
    destruct (truthy (s3 p)); destruct A as (A1 & A2 & A3);
      destruct B as (B1 & B2 & B3);
      repeat (apply elem_of_cons in Hk as [-> | Hk]; [congruence|]);
      apply elem_of_nil in Hk as [].
Qed.

(** X14: the handler and the runtime a creation or a configuration
    update carries are never empty: a missing or empty one is replaced by
    its default. *)
Theorem handler_and_runtime_are_never_empty (p : Params) :
  Forall
    (fun req : JsObject =>
       exists h r,
         req !! "Handler" = Some h /\ truthy h = true /\
         (truthy (handler p) = false -> h = JStr "index.handler") /\
         req !! "Runtime" = Some r /\ truthy r = true /\
         (truthy (runtime p) = false -> r = JStr "nodejs4.3"))
    [createFunction_lamparams p; updateFunctionConfiguration_lamparams p].
Proof.
  assert (forall req : JsObject,
            req !! "Handler"
            = Some (if truthy (handler p) then handler p
                    else JStr "index.handler") ->
            req !! "Runtime"
            = Some (if truthy (runtime p) then runtime p
                    else JStr "nodejs4.3") ->
            exists h r,
              req !! "Handler" = Some h /\ truthy h = true /\
              (truthy (handler p) = false -> h = JStr "index.handler") /\
              req !! "Runtime" = Some r /\ truthy r = true /\
              (truthy (runtime p) = false -> r = JStr "nodejs4.3")) as Hgen.
  { intros req Hh Hr. do 2 eexists. split; [exact Hh|].
    split; [destruct (truthy (handler p)) eqn:E; [exact E | reflexivity]|].
    split; [intros E; now rewrite E|].
    split; [exact Hr|].
    split; [destruct (truthy (runtime p)) eqn:E; [exact E | reflexivity]|].
    intros E; now rewrite E. }
  pose proof (creation_request p) as C. cbn zeta in C.
  pose proof (configuration_request p) as U. cbn zeta in U.
  repeat constructor; apply Hgen; tauto.
Qed.

(** X15: the alias lookup of a run carries [params.name] as the
    function and [params.alias] as the name, and nothing else; the
    creation and the update of the alias carry those and, as the version,
    the one the call two places before them returned (the creation or the
    code update), and nothing else. *)
Theorem alias_calls_fields (p : Params) (w : W) (i : nat) (e : Event) :
  let r := flush aws p w in
  calls r !! i = Some e ->
  match ev_op e with
  | GetAlias =>
      ev_req e !! "FunctionName" = Some (name p) /\
      ev_req e !! "Name" = Some (alias p) /\
      forall k, k ∉ ["FunctionName"; "Name"] -> ev_req e !! k = None
  | CreateAlias | UpdateAlias =>
      ev_req e !! "FunctionName" = Some (name p) /\
      ev_req e !! "Name" = Some (alias p) /\
      (exists j e' v,
         i = S (S j) /\ calls r !! j = Some e' /\
         produced_version e' = Some v /\
         ev_req e !! "FunctionVersion" = Some (JStr v)) /\
      forall k, k ∉ ["FunctionName"; "FunctionVersion"; "Name"] ->
                ev_req e !! k = None
  | _ => True
  end.
Proof.
  cbn zeta. intros He. revert He.
  run_flush; intros He; at_position; cbn; try exact I.
  all: (split; [first [apply getAlias_request | apply alias_request] |]).
  all: (split; [first [apply getAlias_request | apply alias_request] |]).
  all: first
         [ apply getAlias_other
         | split; [| apply alias_other];
           do 3 eexists; split; [reflexivity|]; split; [reflexivity|];
           split; [reflexivity | apply alias_request] ].
Qed.

End More.

(* ===================================================================== *)
(** ** Instances of the further properties *)
(* ===================================================================== *)

(** The upload of a staged deployment. *)
Lemma staged_upload_carries_artifact_witness :
  let out := deploy f_r_staged [package_zip] empty_account in
  exists r e,
    out = Ended r /\ calls r !! 0 = Some e /\ ev_op e = PutObject /\
    ev_req e !! "Body" = Some (JBuffer [Byte.x50; Byte.x4b]).
Proof.
  cbn zeta.
  set (r := flush cloud (with_file f_r_staged (Some package_zip))
              empty_account).
  set (e := EvPutObject
              (s3upload_s3params (with_file f_r_staged (Some package_zip)))
              (inr {| ETag := "etag" |})).
  assert (deploy f_r_staged [package_zip] empty_account = Ended r)
    as H1 by (vm_compute; reflexivity).
  assert (match file f_r_staged with
          | Some g => isBuffer g
          | None => true
          end = true) as H2 by reflexivity.
  assert (calls r !! 0 = Some e) as H3 by (vm_compute; reflexivity).
  assert (ev_op e = PutObject) as H4 by reflexivity.
  destruct (staged_upload_carries_artifact cloud f_r_staged
              (Some aws_options) [package_zip] empty_account r 0 e
              H1 H2 H3 H4)
    as (_ & _ & f & bytes & Ha & Hb & Hbody & _).
  exists r, e.
  split; [exact H1|]. split; [exact H3|]. split; [exact H4|].
  vm_compute in Ha. injection Ha as <-.
  vm_compute in Hb. injection Hb as <-. exact Hbody.
Defined.

(** A stream written after an archive. *)
Lemma stream_is_refused_witness :
  let files := [package_zip; {| path := "s.zip"; contents := Stream |}] in
  module_exports (Some f_r) (Some aws_options) = inr f_r /\
  existsb isStream files = true /\
  deploy f_r files empty_account
  = Threw (gulpError "Stream content is not supported").
Proof.
  cbn zeta.
  assert (module_exports (Some f_r) (Some aws_options) = inr f_r)
    as H1 by reflexivity.
  assert (existsb isStream
            [package_zip; {| path := "s.zip"; contents := Stream |}] = true)
    as H2 by reflexivity.
  split; [exact H1|]. split; [exact H2|].
  exact (stream_is_refused cloud f_r (Some aws_options) _ empty_account
           H1 H2).
Defined.

(** Two archives and a null file. *)
Lemma writing_changes_only_the_file_witness :
  write_all f_r_live [old_zip; package_zip; empty_dir]
    = inr (set_file f_r_live package_zip) /\
  alias (set_file f_r_live package_zip) = alias f_r_live.
Proof.
  assert (write_all f_r_live [old_zip; package_zip; empty_dir]
          = inr (set_file f_r_live package_zip)) as H by reflexivity.
  split; [exact H|].
  pose proof (writing_changes_only_the_file _ _ _ H) as R.
  apply R.
Defined.

(** A deployment with an alias. *)
Lemma aliased_run_publishes_witness :
  let r := flush cloud (with_file f_r_live (Some package_zip))
             account_with_f in
  deploy f_r_live [package_zip] account_with_f = Ended r /\
  truthy (alias f_r_live) = true /\
  truthy (publish f_r_live) = true.
Proof.
  cbn zeta.
  assert (deploy f_r_live [package_zip] account_with_f
          = Ended (flush cloud (with_file f_r_live (Some package_zip))
                     account_with_f))
    as H1 by (vm_compute; reflexivity).
  assert (truthy (alias f_r_live) = true) as H2 by reflexivity.
  split; [exact H1|]. split; [exact H2|].
  pose proof (aliased_run_publishes cloud f_r_live (Some aws_options)
                [package_zip] account_with_f _ H1 H2) as R.
  rewrite Forall_forall in R.
  refine (proj2 (R (EvUpdateFunctionCode
                      (updateFunctionCode_lamparams
                         (with_file f_r_live (Some package_zip)))
                      (inr {| FunctionName := "f"; Version := "3" |}))
                   _ (or_intror eq_refl))).
  apply list_elem_of_lookup. exists 2. vm_compute. reflexivity.
Defined.

(** The creation of the alias on an account that holds [f]. *)
Lemma alias_calls_fields_witness :
  let q := with_file f_r_live (Some package_zip) in
  let e := EvCreateAlias (alias_lamparams "3" q)
             (inr {| AliasName := "live"; FunctionVersion := "3" |}) in
  calls (flush cloud q account_with_f) !! 4 = Some e /\
  ev_req e !! "Name" = Some (JStr "live").
Proof.
  cbn zeta.
  assert (calls (flush cloud (with_file f_r_live (Some package_zip))
                   account_with_f) !! 4
          = Some (EvCreateAlias
                    (alias_lamparams "3"
                       (with_file f_r_live (Some package_zip)))
                    (inr {| AliasName := "live";
                            FunctionVersion := "3" |})))
    as H by (vm_compute; reflexivity).
  split; [exact H|].
  exact (proj1 (proj2 (alias_calls_fields cloud _ _ 4 _ H))).
Defined.
